(** * Atlantis: the GitHub integration layer

    A shallow embedding of the GitHub client of Atlantis
    (package [vcs]: credentials, changed files, comments, approval,
    mergeability, merge) and of the GitHub-app controller of package
    [server], together with the properties its design document states.

    Go values are modelled as follows: [int] and [int64] as [Z], [string]
    as [string] (a sequence of bytes), a nilable pointer as [option], the
    [error] interface as the inductive [Go.error] and a possibly nil
    [error] as [option Go.error]. Calls that leave the process (the
    platform's REST API, the key file, the response writer, the logger)
    are recorded in an event log that every operation returns next to
    its result. *)

From Stdlib Require Import ZArith List String Ascii Bool Lia DecimalString.
From Equations Require Import Equations.
Import ListNotations.

Local Open Scope string_scope.
Local Open Scope Z_scope.

(* ===================================================================== *)
(** * Go: errors, strconv and the fragment of fmt that the code uses      *)
(* ===================================================================== *)

Module Go.

(** The values behind Go's [error] interface that occur in this code. *)
Inductive error : Type :=
| errorString (msg : string)                    (* errors.New, fmt.Errorf *)
| withMessage (cause : error) (msg : string)    (* pkg/errors.Wrap *)
| NumError (fn num : string) (err : error).     (* strconv.NumError *)

(** What a library call hands back: a value, or a non-nil error. *)
Inductive result (A : Type) : Type :=
| Ok (a : A)
| Err (err : error).
Arguments Ok {A} a.
Arguments Err {A} err.

(** How a call ends: it returns, or it panics with a value. *)
Inductive outcome (A : Type) : Type :=
| Returns (a : A)
| Panics (v : error).
Arguments Returns {A} a.
Arguments Panics {A} v.

Definition len (s : string) : Z := Z.of_nat (String.length s).

Definition quoteChar : ascii := "034"%char.
Definition backslash : ascii := "092"%char.
Definition newline : ascii := "010"%char.
Definition nl : string := String newline EmptyString.

(** strconv.Quote on the bytes this code quotes: the quote and the
    backslash are escaped, a line feed is written [\n]. *)
Fixpoint quoteBody (s : string) : string :=
  match s with
  | EmptyString => EmptyString
  | String c rest =>
      if Ascii.eqb c quoteChar then String backslash (String quoteChar (quoteBody rest))
      else if Ascii.eqb c backslash then String backslash (String backslash (quoteBody rest))
      else if Ascii.eqb c newline then String backslash (String "n"%char (quoteBody rest))
      else String c (quoteBody rest)
  end.

Definition Quote (s : string) : string :=
  String quoteChar (quoteBody s ++ String quoteChar EmptyString).

Definition Itoa (z : Z) : string := NilZero.string_of_int (Z.to_int z).

(** [err.Error()]. *)
Fixpoint Error (e : error) : string :=
  match e with
  | errorString msg => msg
  | withMessage cause msg => msg ++ ": " ++ Error cause
  | NumError fn num err =>
      "strconv." ++ fn ++ ": parsing " ++ Quote num ++ ": " ++ Error err
  end.

(** errors.Wrap(err, message), for a non-nil [err]. *)
Definition Wrap (err : error) (message : string) : error :=
  withMessage err message.

(** ** strconv.ParseInt(s, 10, 64) *)

Definition ErrSyntax : error := errorString "invalid syntax".
Definition ErrRange : error := errorString "value out of range".

Definition maxUint64 : Z := 2 ^ 64 - 1.

Definition digitVal (c : ascii) : option Z :=
  let n := Z.of_N (N_of_ascii c) in
  if (48 <=? n) && (n <=? 57) then Some (n - 48) else None.

(** The digit loop of ParseUint in base 10: [n] is the value read so
    far. A byte that is no decimal digit is a syntax error; a value
    that leaves uint64 is a range error. *)
Fixpoint parseDigits (s : string) (n : Z) : result Z :=
  match s with
  | EmptyString => Ok n
  | String c rest =>
      match digitVal c with
      | None => Err ErrSyntax
      | Some d =>
          if maxUint64 / 10 + 1 <=? n then Err ErrRange
          else
            let n1 := n * 10 + d in
            if maxUint64 <? n1 then Err ErrRange
            else parseDigits rest n1
      end
  end.

Definition ParseUint (s : string) : result Z :=
  match s with
  | EmptyString => Err ErrSyntax
  | _ => parseDigits s 0
  end.

(** ParseInt returns a value and an error, both: on a range error the
    value is the nearest bound, on a syntax error it is 0. *)
Definition ParseInt (s : string) : Z * option error :=
  match s with
  | EmptyString => (0, Some (NumError "ParseInt" s ErrSyntax))
  | String c rest =>
      let neg := Ascii.eqb c "-"%char in
      let body := if Ascii.eqb c "+"%char || neg then rest else s in
      let cutoff := 2 ^ 63 in
      match ParseUint body with
      | Err e =>
          if match e with errorString m => String.eqb m "value out of range" | _ => false end
          then if neg then (- cutoff, Some (NumError "ParseInt" s ErrRange))
               else (cutoff - 1, Some (NumError "ParseInt" s ErrRange))
          else (0, Some (NumError "ParseInt" s e))
      | Ok un =>
          if negb neg && (cutoff <=? un) then (cutoff - 1, Some (NumError "ParseInt" s ErrRange))
          else if neg && (cutoff <? un) then (- cutoff, Some (NumError "ParseInt" s ErrRange))
          else (if neg then - un else un, None)
      end
  end.

(** ** fmt.Sprintf, for the verbs and operands of this code *)

Inductive fmtArg : Type :=
| ArgString (s : string)
| ArgError (e : error)
| ArgBytes (b : string)
| ArgInt (z : Z).

Definition verbName (verb : ascii) : string := String verb EmptyString.

Definition formatVerb (verb : ascii) (a : fmtArg) : string :=
  if Ascii.eqb verb "s"%char || Ascii.eqb verb "v"%char then
    match a with
    | ArgString s => s
    | ArgError e => Error e
    | ArgBytes b => b
    | ArgInt z => if Ascii.eqb verb "v"%char then Itoa z else "%!s(int=" ++ Itoa z ++ ")"
    end
  else if Ascii.eqb verb "q"%char then
    match a with
    | ArgString s => Quote s
    | ArgError e => Quote (Error e)
    | ArgBytes b => Quote b
    | ArgInt z => "%!q(int=" ++ Itoa z ++ ")"
    end
  else if Ascii.eqb verb "d"%char then
    match a with
    | ArgInt z => Itoa z
    | ArgString s => "%!d(string=" ++ s ++ ")"
    | ArgError e => "%!d(error=" ++ Error e ++ ")"
    | ArgBytes b => "%!d([]uint8=" ++ b ++ ")"
    end
  else "%!" ++ verbName verb ++ "(BADVERB)".

Fixpoint Sprintf (format : string) (args : list fmtArg) : string :=
  match format with
  | EmptyString =>
      match args with
      | [] => EmptyString
      | _ => "%!(EXTRA)"
      end
  | String c rest =>
      if Ascii.eqb c "%"%char then
        match rest with
        | EmptyString => "%!(NOVERB)"
        | String verb rest' =>
            if Ascii.eqb verb "%"%char then String "%"%char (Sprintf rest' args)
            else
              match args with
              | a :: args' => formatVerb verb a ++ Sprintf rest' args'
              | [] => "%!" ++ verbName verb ++ "(MISSING)" ++ Sprintf rest' []
              end
        end
      else String c (Sprintf rest args)
  end.

(** fmt.Errorf(format, args...). *)
Definition Errorf (format : string) (args : list fmtArg) : error :=
  errorString (Sprintf format args).

End Go.

(* ===================================================================== *)
(** * go-github: the records the client reads, with their nil-safe getters *)
(* ===================================================================== *)

Module github.

Record ListOptions : Type := { Page : Z; PerPage : Z }.

Record Response : Type := { NextPage : Z; StatusCode : Z }.

Record CommitFile : Type :=
  { Filename : option string;
    Status : option string;
    PreviousFilename : option string }.

Definition orEmpty (s : option string) : string :=
  match s with Some v => v | None => EmptyString end.

Definition orFalse (b : option bool) : bool :=
  match b with Some v => v | None => false end.

(** A getter on a nil pointer, or on a nil field, gives the zero value. *)
Definition getString {A : Type} (field : A -> option string) (p : option A) : string :=
  match p with Some v => orEmpty (field v) | None => EmptyString end.

Definition getBool {A : Type} (field : A -> option bool) (p : option A) : bool :=
  match p with Some v => orFalse (field v) | None => false end.

Definition GetFilename : option CommitFile -> string := getString Filename.
Definition GetStatus : option CommitFile -> string := getString Status.
Definition GetPreviousFilename : option CommitFile -> string := getString PreviousFilename.

Record PullRequestReview : Type := { State : option string }.
Definition GetState : option PullRequestReview -> string := getString State.

Record PullRequest : Type := { MergeableState : option string }.
Definition GetMergeableState : option PullRequest -> string := getString MergeableState.

Record Repository : Type :=
  { AllowMergeCommit : option bool;
    AllowRebaseMerge : option bool;
    AllowSquashMerge : option bool }.
Definition GetAllowMergeCommit : option Repository -> bool := getBool AllowMergeCommit.
Definition GetAllowRebaseMerge : option Repository -> bool := getBool AllowRebaseMerge.
Definition GetAllowSquashMerge : option Repository -> bool := getBool AllowSquashMerge.

Record PullRequestOptions : Type := { MergeMethod : string }.

Record PullRequestMergeResult : Type :=
  { Merged : option bool;
    Message : option string }.
Definition GetMerged : option PullRequestMergeResult -> bool := getBool Merged.
Definition GetMessage : option PullRequestMergeResult -> string := getString Message.

Record IssueComment : Type := { Body : option string }.

End github.

(* ===================================================================== *)
(** * models: the references the client is called with                    *)
(* ===================================================================== *)

Module models.

Record Repo : Type := { Owner : string; Name : string }.

Record PullRequest : Type :=
  { Num : Z;
    HeadCommit : string;
    BaseRepo : Repo }.

End models.

(* ===================================================================== *)
(** * common: the comment chunker                                         *)
(* ===================================================================== *)

Module common.

Import Go.

Definition blen (text : list ascii) : Z := Z.of_nat (List.length text).

(** Modelled from the spec: the line boundary that a split looks for.
    One past the last line feed of [window], [best] when there is none;
    [pos] counts the bytes already passed. *)
Fixpoint lastBreak (window : list ascii) (pos best : nat) : nat :=
  match window with
  | [] => best
  | c :: rest =>
      lastBreak rest (S pos) (if Ascii.eqb c newline then S pos else best)
  end.

(** Modelled from the spec: where the next segment ends. After the last
    line feed among the first [budget] bytes, and after [budget] bytes
    when these hold no line feed. *)
Definition cutPoint (budget : Z) (text : list ascii) : nat :=
  match lastBreak (firstn (Z.to_nat budget) text) 0 0 with
  | O => Z.to_nat budget
  | S b => S b
  end.

Definition fits (budget : Z) (text : list ascii) :
  {blen text <= budget \/ budget <= 0} + {0 < budget < blen text}.
Proof.
  destruct (Z_le_gt_dec (blen text) budget) as [Hle | Hgt].
  - left. left. exact Hle.
  - destruct (Z_le_gt_dec budget 0) as [Hz | Hp].
    + left. right. exact Hz.
    + right. split; [apply Z.gt_lt; exact Hp | apply Z.gt_lt; exact Hgt].
Defined.

(** Modelled from the spec: the text cut into pieces of at most
    [budget] bytes each; a text within the budget is one piece. *)
Equations? pieces (budget : Z) (text : list ascii) : list (list ascii)
  by wf (List.length text) lt :=
  pieces budget text with fits budget text => {
    | left _ := [text];
    | right _ :=
        firstn (cutPoint budget text) text
          :: pieces budget (skipn (cutPoint budget text) text) }.
Proof.
  rewrite length_skipn. unfold blen in *.
  assert (1 <= cutPoint budget text)%nat.
  { unfold cutPoint. destruct (lastBreak _ 0 0); lia. }
  lia.
Qed.

(** Modelled from the spec: the continuation markers around the pieces,
    [sepStart] before every piece but the first, [sepEnd] after every
    piece but the last. *)
Fixpoint wrap (sepEnd sepStart : list ascii) (first : bool)
         (ps : list (list ascii)) : list (list ascii) :=
  match ps with
  | [] => []
  | p :: rest =>
      let lead := if first then [] else sepStart in
      let trail := match rest with [] => [] | _ :: _ => sepEnd end in
      (lead ++ p ++ trail)%list :: wrap sepEnd sepStart false rest
  end.

(** Modelled from the spec: [SplitComment] of package common, which
    CreateComment calls and whose body lies outside the files embedded
    here. A text that fits the maximum is one segment, unmodified. A
    longer text is split at line boundaries, each segment with its
    markers within the maximum; a line longer than a segment's room is
    split where the room ends. *)
Definition SplitComment (comment : string) (maxSize : Z)
           (sepEnd sepStart : string) : list string :=
  if len comment <=? maxSize then [comment]
  else
    let maxWithSep := maxSize - len sepEnd - len sepStart in
    map string_of_list_ascii
        (wrap (list_ascii_of_string sepEnd) (list_ascii_of_string sepStart) true
              (pieces maxWithSep (list_ascii_of_string comment))).

(** ** Reading the segments back *)

Fixpoint stripPrefix (marker text : list ascii) : option (list ascii) :=
  match marker, text with
  | [], _ => Some text
  | _ :: _, [] => None
  | a :: marker', b :: text' =>
      if Ascii.eqb a b then stripPrefix marker' text' else None
  end.

Definition stripSuffix (marker text : list ascii) : option (list ascii) :=
  option_map (@rev ascii) (stripPrefix (rev marker) (rev text)).

(** The text that a sequence of segments stands for: every segment but
    the first loses [sepStart] at its head, every segment but the last
    loses [sepEnd] at its tail, and what is left is concatenated.
    [None] when a marker is not where it has to be. *)
Fixpoint unwrap (sepEnd sepStart : list ascii) (first : bool)
         (segs : list (list ascii)) : option (list ascii) :=
  match segs with
  | [] => Some []
  | seg :: rest =>
      match (if first then Some seg else stripPrefix sepStart seg) with
      | None => None
      | Some body =>
          match rest with
          | [] => Some body
          | _ :: _ =>
              match stripSuffix sepEnd body, unwrap sepEnd sepStart false rest with
              | Some b, Some r => Some (b ++ r)%list
              | _, _ => None
              end
          end
      end
  end.

Definition Reassemble (sepEnd sepStart : string) (segs : list string) : option string :=
  option_map string_of_list_ascii
             (unwrap (list_ascii_of_string sepEnd) (list_ascii_of_string sepStart) true
                     (map list_ascii_of_string segs)).

End common.

(* ===================================================================== *)
(** * ghinstallation and net/http: what credentials are turned into       *)
(* ===================================================================== *)

Module http.

Import Go.

(** The transports of this code: the default one, basic auth, the
    application's JWT signer and the installation-token transport. *)
Inductive RoundTripper : Type :=
| DefaultTransport
| BasicAuthTransport (Username Password : string)
| AppsTransport (appID : Z) (key : string)
| InstallationTransport (appID installationID : Z) (key : string).

Record Client : Type := { Transport : RoundTripper }.

Record Request : Type := { Method : string; URL : string }.

(** The world a credential is resolved in: the key files that
    ghinstallation reads, request construction, and the reply of the
    identity endpoint, decoded into the [id] field that the caller
    asked for. *)
Record Host : Type :=
  { NewAppsTransportKeyFromFile : RoundTripper -> Z -> string -> result RoundTripper;
    NewKeyFromFile : RoundTripper -> Z -> Z -> string -> result RoundTripper;
    NewRequest : string -> string -> result Request;
    DoApp : Client -> Request -> result string }.

End http.

Module strings.

Definition isSpace (c : ascii) : bool :=
  let n := N_of_ascii c in
  (N.eqb n 32 || N.leb 9 n && N.leb n 13)%bool.

Fixpoint trimLeft (s : list ascii) : list ascii :=
  match s with
  | c :: rest => if isSpace c then trimLeft rest else s
  | [] => []
  end.

(** strings.TrimSpace on ASCII white space. *)
Definition TrimSpace (s : string) : string :=
  string_of_list_ascii
    (rev (trimLeft (rev (trimLeft (list_ascii_of_string s))))).

End strings.

(* ===================================================================== *)
(** * vcs, the client file: credentials that panic and the operations     *)
(* ===================================================================== *)

Module vcs.

Import Go github.

(** maxCommentLength is the maximum number of chars allowed in a single
    comment by GitHub. *)
Definition maxCommentLength : Z := 65536.

(** ** Credentials *)

Class GithubCredentials (C : Type) : Type :=
  { Client : http.Host -> C -> outcome http.Client }.

Record GithubUserCredentials : Type := { User : string; Token : string }.

#[global] Instance GithubUserCredentials_Client : GithubCredentials GithubUserCredentials :=
  { Client := fun _ c =>
      let tr := http.BasicAuthTransport (strings.TrimSpace (User c))
                                        (strings.TrimSpace (Token c)) in
      Returns {| http.Transport := tr |} }.

Record GithubAppCredentials : Type := { App : Z; Key : string }.

Definition getInstallationID (h : http.Host) (c : GithubAppCredentials)
  : Z * option error :=
  let tr := http.DefaultTransport in
  match http.NewAppsTransportKeyFromFile h tr (App c) (Key c) with
  | Err err => (0, Some err)
  | Ok t =>
      let client := {| http.Transport := t |} in
      match http.NewRequest h "GET" "/app" with
      | Err err => (0, Some err)
      | Ok req =>
          match http.DoApp h client req with
          | Err err => (0, Some err)
          | Ok appID => ParseInt appID
          end
      end
  end.

#[global] Instance GithubAppCredentials_Client : GithubCredentials GithubAppCredentials :=
  { Client := fun h c =>
      match getInstallationID h c with
      | (_, Some err) => Panics err
      | (installationID, None) =>
          let tr := http.DefaultTransport in
          match http.NewKeyFromFile h tr (App c) installationID (Key c) with
          | Err err => Panics err
          | Ok itr => Returns {| http.Transport := itr |}
          end
      end }.

(** ** The platform and the calls made to it *)

Record GithubClient : Type :=
  { PullRequests_ListFiles :
      string -> string -> Z -> ListOptions -> result (list (option CommitFile) * Response);
    PullRequests_ListReviews :
      string -> string -> Z -> ListOptions -> result (list (option PullRequestReview) * Response);
    PullRequests_Get : string -> string -> Z -> result PullRequest;
    Repositories_Get : string -> string -> result Repository;
    PullRequests_Merge :
      string -> string -> Z -> string -> PullRequestOptions -> result PullRequestMergeResult;
    Issues_CreateComment : string -> string -> Z -> IssueComment -> result unit }.

Inductive Call : Type :=
| ListFiles (owner name : string) (num : Z) (opts : ListOptions)
| ListReviews (owner name : string) (num : Z) (opts : ListOptions)
| GetPull (owner name : string) (num : Z)
| GetRepo (owner name : string)
| Merge (owner name : string) (num : Z) (commitMessage : string) (options : PullRequestOptions)
| CreateIssueComment (owner name : string) (num : Z) (comment : IssueComment).

(** An operation's result with the calls it made, in order. *)
Definition Eff (A : Type) : Type := (A * list Call)%type.

Definition after {A : Type} (c : Call) (m : Eff A) : Eff A :=
  (fst m, c :: snd m).

(** The options of one page fetch: 300 entries a page, and the page
    number only once the platform has named a next page. *)
Definition pageOpts (nextPage : Z) : ListOptions :=
  let opts := {| Page := 0; PerPage := 300 |} in
  if negb (nextPage =? 0) then {| Page := nextPage; PerPage := PerPage opts |} else opts.

(** ** GetModifiedFiles *)

(** The body of the loop over one page's files. *)
Definition appendFile (files : list string) (f : option CommitFile) : list string :=
  let files := (files ++ [GetFilename f])%list in
  if String.eqb (GetStatus f) "renamed"
  then (files ++ [GetPreviousFilename f])%list
  else files.

(** The page loop; it has no bound of its own, [fuel] bounds the number
    of pages fetched and [None] stands for a walk that needs more. *)
Fixpoint GetModifiedFiles_loop (fuel : nat) (g : GithubClient)
         (repo : models.Repo) (pull : models.PullRequest)
         (files : list string) (nextPage : Z)
  : option (Eff (list string * option error)) :=
  match fuel with
  | O => None
  | S fuel' =>
      let opts := pageOpts nextPage in
      let call := ListFiles (models.Owner repo) (models.Name repo) (models.Num pull) opts in
      match PullRequests_ListFiles g (models.Owner repo) (models.Name repo)
                                   (models.Num pull) opts with
      | Err err => Some ((files, Some err), [call])
      | Ok (pageFiles, resp) =>
          let files := fold_left appendFile pageFiles files in
          if NextPage resp =? 0 then Some ((files, None), [call])
          else option_map (after call)
                          (GetModifiedFiles_loop fuel' g repo pull files (NextPage resp))
      end
  end.

Definition GetModifiedFiles (fuel : nat) (g : GithubClient)
           (repo : models.Repo) (pull : models.PullRequest)
  : option (Eff (list string * option error)) :=
  GetModifiedFiles_loop fuel g repo pull [] 0.

(** ** CreateComment *)

Definition sepEnd : string :=
  nl ++ "```" ++ nl ++ "</details>"
     ++ nl ++ "<br>" ++ nl ++ nl
     ++ "**Warning**: Output length greater than max comment size. Continued in next comment.".

Definition sepStart : string :=
  "Continued from previous comment." ++ nl
     ++ "<details><summary>Show Output</summary>" ++ nl ++ nl
     ++ "```diff" ++ nl.

Fixpoint postComments (g : GithubClient) (repo : models.Repo) (pullNum : Z)
         (comments : list string) : Eff (option error) :=
  match comments with
  | [] => (None, [])
  | c :: rest =>
      let body := {| Body := Some c |} in
      let call := CreateIssueComment (models.Owner repo) (models.Name repo) pullNum body in
      match Issues_CreateComment g (models.Owner repo) (models.Name repo) pullNum body with
      | Err err => (Some err, [call])
      | Ok _ => after call (postComments g repo pullNum rest)
      end
  end.

Definition CreateComment (g : GithubClient) (repo : models.Repo) (pullNum : Z)
           (comment : string) : Eff (option error) :=
  let comments := common.SplitComment comment maxCommentLength sepEnd sepStart in
  postComments g repo pullNum comments.

(** ** PullIsApproved *)

(** The loop over one page's reviews: [true] when it returns from the
    function on an approved review. *)
Fixpoint anyApproved (pageReviews : list (option PullRequestReview)) : bool :=
  match pageReviews with
  | [] => false
  | review :: rest =>
      if (match review with Some _ => true | None => false end)
         && String.eqb (GetState review) "APPROVED"
      then true
      else anyApproved rest
  end.

Fixpoint PullIsApproved_loop (fuel : nat) (g : GithubClient)
         (repo : models.Repo) (pull : models.PullRequest) (nextPage : Z)
  : option (Eff (bool * option error)) :=
  match fuel with
  | O => None
  | S fuel' =>
      let opts := pageOpts nextPage in
      let call := ListReviews (models.Owner repo) (models.Name repo) (models.Num pull) opts in
      match PullRequests_ListReviews g (models.Owner repo) (models.Name repo)
                                     (models.Num pull) opts with
      | Err err => Some ((false, Some (Wrap err "getting reviews")), [call])
      | Ok (pageReviews, resp) =>
          if anyApproved pageReviews then Some ((true, None), [call])
          else if NextPage resp =? 0 then Some ((false, None), [call])
          else option_map (after call)
                          (PullIsApproved_loop fuel' g repo pull (NextPage resp))
      end
  end.

Definition PullIsApproved (fuel : nat) (g : GithubClient)
           (repo : models.Repo) (pull : models.PullRequest)
  : option (Eff (bool * option error)) :=
  PullIsApproved_loop fuel g repo pull 0.

(** ** GetPullRequest and PullIsMergeable *)

Definition GetPullRequest (g : GithubClient) (repo : models.Repo) (num : Z)
  : Eff (option PullRequest * option error) :=
  let call := GetPull (models.Owner repo) (models.Name repo) num in
  match PullRequests_Get g (models.Owner repo) (models.Name repo) num with
  | Err err => ((None, Some err), [call])
  | Ok pull => ((Some pull, None), [call])
  end.

Definition PullIsMergeable (g : GithubClient) (repo : models.Repo)
           (pull : models.PullRequest) : Eff (bool * option error) :=
  let '((githubPR, err), calls) := GetPullRequest g repo (models.Num pull) in
  match err with
  | Some err => ((false, Some (Wrap err "getting pull request")), calls)
  | None =>
      let state := GetMergeableState githubPR in
      if negb (String.eqb state "clean") && negb (String.eqb state "unstable")
         && negb (String.eqb state "has_hooks")
      then ((false, None), calls)
      else ((true, None), calls)
  end.

(** ** MergePull *)

Definition defaultMergeMethod : string := "merge".
Definition rebaseMergeMethod : string := "rebase".
Definition squashMergeMethod : string := "squash".

(** The method that the repository's settings leave: merge when merge
    commits are allowed or nothing is, else rebase, else squash. *)
Definition mergeMethod (repo : option Repository) : string :=
  let method := defaultMergeMethod in
  if negb (GetAllowMergeCommit repo) then
    if GetAllowRebaseMerge repo then rebaseMergeMethod
    else if GetAllowSquashMerge repo then squashMergeMethod
    else method
  else method.

Section Merge.

(** common.AutomergeCommitMsg, the commit message that tags an
    automated merge; the constant is declared in package common. *)
Variable AutomergeCommitMsg : string.

Definition MergePull (g : GithubClient) (pull : models.PullRequest)
  : Eff (option error) :=
  let owner := models.Owner (models.BaseRepo pull) in
  let name := models.Name (models.BaseRepo pull) in
  match Repositories_Get g owner name with
  | Err err => (Some (Wrap err "fetching repo info"), [GetRepo owner name])
  | Ok repo =>
      let method := mergeMethod (Some repo) in
      let options := {| MergeMethod := method |} in
      let calls := [GetRepo owner name;
                    Merge owner name (models.Num pull) AutomergeCommitMsg options] in
      match PullRequests_Merge g owner name (models.Num pull)
                               AutomergeCommitMsg options with
      | Err err => (Some (Wrap err "merging pull request"), calls)
      | Ok mergeResult =>
          if negb (GetMerged (Some mergeResult)) then
            (Some (Errorf "could not merge pull request: %s"
                          [ArgString (GetMessage (Some mergeResult))]), calls)
          else (None, calls)
      end
  end.

End Merge.

End vcs.

(* ===================================================================== *)
(** * vcs, the credentials file: credentials that return their error      *)
(* ===================================================================== *)

Module vcs_credentials.

Import Go.

(** GithubCredentials handles creating http.Clients that authenticate. *)
Class GithubCredentials (C : Type) : Type :=
  { Client : http.Host -> C -> option http.Client * option error }.

Record GithubUserCredentials : Type := { User : string; Token : string }.

#[global] Instance GithubUserCredentials_Client : GithubCredentials GithubUserCredentials :=
  { Client := fun _ c =>
      let tr := http.BasicAuthTransport (strings.TrimSpace (User c))
                                        (strings.TrimSpace (Token c)) in
      (Some {| http.Transport := tr |}, None) }.

Record GithubAppCredentials : Type := { AppID : Z; KeyPath : string }.

Definition getInstallationID (h : http.Host) (c : GithubAppCredentials)
  : Z * option error :=
  let tr := http.DefaultTransport in
  match http.NewAppsTransportKeyFromFile h tr (AppID c) (KeyPath c) with
  | Err err => (0, Some err)
  | Ok t =>
      let client := {| http.Transport := t |} in
      match http.NewRequest h "GET" "/app" with
      | Err err => (0, Some err)
      | Ok req =>
          match http.DoApp h client req with
          | Err err => (0, Some err)
          | Ok appID => ParseInt appID
          end
      end
  end.

#[global] Instance GithubAppCredentials_Client : GithubCredentials GithubAppCredentials :=
  { Client := fun h c =>
      match getInstallationID h c with
      | (_, Some err) => (None, Some err)
      | (installationID, None) =>
          let tr := http.DefaultTransport in
          match http.NewKeyFromFile h tr (AppID c) installationID (KeyPath c) with
          | Err err => (None, Some err)
          | Ok itr => (Some {| http.Transport := itr |}, None)
          end
      end }.

End vcs_credentials.

(* ===================================================================== *)
(** * server: the GitHub-app controller                                   *)
(* ===================================================================== *)

Module server.

Import Go.

Inductive LogLevel : Type := Debug | Info | Warn | Error.

Definition StatusOK : Z := 200.
Definition StatusBadRequest : Z := 400.
Definition StatusBadGateway : Z := 502.

(** GithubAppController handles the creation and setup of a new GitHub app. *)
Record GithubAppController : Type :=
  { AtlantisURL : string;
    GithubSetupComplete : bool;
    GithubHostname : string;
    GithubOrg : string }.

(** githubAppResponse is the json response sent to the user after a
    successful code exchange. *)
Record githubAppResponse : Type :=
  { COMMENT : string;
    ID : Z;
    Key : string;
    WebhookSecret : string }.

(** The reply of the manifest conversion, as decoded by the handler. *)
Record appManifest : Type :=
  { app_ID : Z;
    app_Key : string;
    app_WebhookSecret : string;
    app_Name : string }.

(** The incoming request: its parsed query, a key with its values. *)
Record Request : Type := { Query : list (string * list string) }.

(** url.Values.Get: the first value of the key, the empty string when
    the key has no value. *)
Fixpoint Get (values : list (string * list string)) (key : string) : string :=
  match values with
  | [] => EmptyString
  | (k, vs) :: rest =>
      if String.eqb k key then
        match vs with
        | [] => EmptyString
        | v :: _ => v
        end
      else Get rest key
  end.

(** What the handler reaches outside itself: request construction, the
    platform's reply to the exchange, and json.Marshal. *)
Record Exchange : Type :=
  { NewRequest : string -> string -> result http.Request;
    Do : http.Request -> result (github.Response * appManifest);
    Marshal : githubAppResponse -> string }.

(** What the handler does to the logger, to the response writer and to
    the platform, in order. *)
Inductive Event : Type :=
| LoggerLog (lvl : LogLevel) (format : string) (args : list fmtArg)
| WriteHeader (code : Z)
| Write (body : string)
| HTTPNewRequest (method url : string)
| ClientDo (req : http.Request).

Definition respond (lvl : LogLevel) (code : Z) (format : string)
           (args : list fmtArg) : list Event :=
  let response := Sprintf format args in
  [LoggerLog lvl response []; WriteHeader code; Write (response ++ nl)].

(** ExchangeCode handles the user coming back from creating their app. *)
Definition ExchangeCode (g : GithubAppController) (x : Exchange) (r : Request)
  : list Event :=
  if GithubSetupComplete g then
    respond Error StatusBadRequest "Atlantis already has GitHub credentials" []
  else
    let code := Get (Query r) "code" in
    ((if String.eqb code EmptyString
      then respond Debug StatusOK "Ignoring callback, missing code query parameter" []
      else [])
     ++ LoggerLog Debug "Exchanging GitHub app code for app credentials" []
     :: (let url := Sprintf "/app-manifests/%s/conversions" [ArgString code] in
         HTTPNewRequest "POST" url
         :: match NewRequest x "POST" url with
            | Err err =>
                respond Error StatusBadGateway
                        "Error creating http request to exchange token: %s" [ArgError err]
            | Ok req =>
                ClientDo req
                :: match Do x req with
                   | Err err =>
                       respond Error StatusBadGateway
                               "Error exchanging code for token: %s" [ArgError err]
                   | Ok (res, app) =>
                       if 400 <=? github.StatusCode res then
                         let response := EmptyString in
                         respond Error (github.StatusCode res)
                                 "Error exchanging code for token: %q" [ArgBytes response]
                       else
                         let response :=
                           Marshal x {| COMMENT := "Update these values in your Atlantis config and restart the server";
                                        ID := app_ID app;
                                        WebhookSecret := app_WebhookSecret app;
                                        Key := app_Key app |} in
                         LoggerLog Debug "Found credentials for GitHub app %q with id %d"
                                   [ArgString (app_Name app); ArgInt (app_ID app)]
                         :: respond Info StatusOK response []
                   end
            end))%list.

End server.

(* ===================================================================== *)
(** * The design document's notions                                       *)
(* ===================================================================== *)

Module Design.

Import Go github.

(** ** Pagination: what the platform delivers from a page on *)

Section Walk.

Context {A : Type}.
Variable fetch : ListOptions -> result (list A * Response).

(** [Delivered p pages q]: asked for page [p] and then for every next
    page it names, the platform delivers [pages], each with a marker
    for a next page, and the marker after the last of them is [q]. *)
Inductive Delivered : Z -> list (Z * list A) -> Z -> Prop :=
| Delivered_nil (p : Z) : Delivered p [] p
| Delivered_cons (p : Z) (items : list A) (resp : Response)
                 (rest : list (Z * list A)) (q : Z) :
    fetch (vcs.pageOpts p) = Ok (items, resp) ->
    NextPage resp <> 0 ->
    Delivered (NextPage resp) rest q ->
    Delivered p ((p, items) :: rest) q.

End Walk.

(** The entries of the delivered pages, in the order of delivery. *)
Definition entries {A : Type} (pages : list (Z * list A)) : list A :=
  List.concat (map snd pages).

(** The paths that one changed file contributes: its name, and for a
    renamed file its previous name after it. *)
Definition fileNames (f : option CommitFile) : list string :=
  if String.eqb (GetStatus f) "renamed"
  then [GetFilename f; GetPreviousFilename f]
  else [GetFilename f].

(** A page holds a review in the approved state. *)
Definition hasApproved (pageReviews : list (option PullRequestReview)) : Prop :=
  exists review, In (Some review) pageReviews /\ State review = Some "APPROVED".

(** The states in which the platform's merge control can be used. *)
Definition mergeableStates : list string := ["clean"; "unstable"; "has_hooks"].

(** The Merge Method Selector, in the design's words. *)
Definition selectMergeMethod (allowMergeCommit allowRebase allowSquash : bool) : string :=
  if allowMergeCommit then "merge"
  else if allowRebase then "rebase"
  else if allowSquash then "squash"
  else "merge".

(** ** The integer that a text denotes in base 10 *)

Fixpoint digitsValue (s : string) (acc : Z) : option Z :=
  match s with
  | EmptyString => Some acc
  | String c rest =>
      match digitVal c with
      | Some d => digitsValue rest (acc * 10 + d)
      | None => None
      end
  end.

Definition unsignedOf (s : string) : option Z :=
  match s with
  | EmptyString => None
  | String _ _ => digitsValue s 0
  end.

(** An optional sign and then one decimal digit or more. *)
Definition integerOf (s : string) : option Z :=
  match s with
  | EmptyString => None
  | String c rest =>
      if Ascii.eqb c "-"%char then option_map Z.opp (unsignedOf rest)
      else if Ascii.eqb c "+"%char then unsignedOf rest
      else unsignedOf s
  end.

(** ** What a handler wrote to its response writer *)

Definition headersWritten (events : list server.Event) : list Z :=
  flat_map (fun e => match e with server.WriteHeader code => [code] | _ => [] end) events.

Definition bodiesWritten (events : list server.Event) : list string :=
  flat_map (fun e => match e with server.Write body => [body] | _ => [] end) events.

Definition exchangesAttempted (events : list server.Event) : list (string * string) :=
  flat_map (fun e => match e with
                     | server.HTTPNewRequest method url => [(method, url)]
                     | _ => []
                     end) events.

End Design.

(* ===================================================================== *)
(** * Concrete platforms and requests, for the examples                   *)
(* ===================================================================== *)

Module Fixtures.

Import Go github.

Definition repo : models.Repo := {| models.Owner := "runatlantis"; models.Name := "atlantis" |}.

Definition pull : models.PullRequest :=
  {| models.Num := 7; models.HeadCommit := "abc123"; models.BaseRepo := repo |}.

Definition file (name status : string) (previous : option string) : option CommitFile :=
  Some {| Filename := Some name; Status := Some status; PreviousFilename := previous |}.

Definition review (state : string) : option PullRequestReview :=
  Some {| State := Some state |}.

Definition page {A : Type} (items : list A) (next : Z) : result (list A * Response) :=
  Ok (items, {| NextPage := next; StatusCode := 200 |}).

(** Two pages of files, the first with a renamed file, then no more. *)
Definition filePages (opts : ListOptions) : result (list (option CommitFile) * Response) :=
  if Page opts =? 0 then
    page [file "a/main.tf" "modified" None; file "b/new.tf" "renamed" (Some "b/old.tf")] 2
  else if Page opts =? 2 then page [file "a/main.tf" "added" None] 0
  else Err (errorString "404 Not Found").

(** A page of files, then a failure. *)
Definition brokenFilePages (opts : ListOptions) : result (list (option CommitFile) * Response) :=
  if Page opts =? 0 then page [file "a/main.tf" "modified" None] 2
  else Err (errorString "502 Bad Gateway").

(** Three pages of reviews, the approval on the second. *)
Definition reviewPages (opts : ListOptions) : result (list (option PullRequestReview) * Response) :=
  if Page opts =? 0 then page [review "COMMENTED"; None] 2
  else if Page opts =? 2 then page [review "CHANGES_REQUESTED"; review "APPROVED"] 3
  else page [review "COMMENTED"] 0.

(** Two pages of reviews and no approval on either. *)
Definition unapprovedPages (opts : ListOptions) : result (list (option PullRequestReview) * Response) :=
  if Page opts =? 0 then page [review "COMMENTED"; None] 2
  else page [review "DISMISSED"] 0.

Definition platform
           (files : ListOptions -> result (list (option CommitFile) * Response))
           (reviews : ListOptions -> result (list (option PullRequestReview) * Response))
           (state : string) (flags : Repository)
           (merge : result PullRequestMergeResult) : vcs.GithubClient :=
  {| vcs.PullRequests_ListFiles := fun _ _ _ opts => files opts;
     vcs.PullRequests_ListReviews := fun _ _ _ opts => reviews opts;
     vcs.PullRequests_Get := fun _ _ _ => Ok {| MergeableState := Some state |};
     vcs.Repositories_Get := fun _ _ => Ok flags;
     vcs.PullRequests_Merge := fun _ _ _ _ _ => merge;
     vcs.Issues_CreateComment := fun _ _ _ _ => Ok tt |}.

Definition squashOnly : Repository :=
  {| AllowMergeCommit := Some false; AllowRebaseMerge := None; AllowSquashMerge := Some true |}.

Definition merged : result PullRequestMergeResult :=
  Ok {| Merged := Some true; Message := Some "Pull Request successfully merged" |}.


Definition github (state : string) (merge : result PullRequestMergeResult) : vcs.GithubClient :=
  platform filePages reviewPages state squashOnly merge.

Definition commitMsg : string := "[Atlantis] Automatically merging after successful apply".

(** A host whose key file and identity endpoint answer, the endpoint
    with the given [id]. *)
Definition host (id : string) : http.Host :=
  {| http.NewAppsTransportKeyFromFile := fun _ app key => Ok (http.AppsTransport app key);
     http.NewKeyFromFile := fun _ app inst key => Ok (http.InstallationTransport app inst key);
     http.NewRequest := fun method url => Ok {| http.Method := method; http.URL := url |};
     http.DoApp := fun _ _ => Ok id |}.

(** A host on which the key file cannot be read. *)
Definition noKey : error := errorString "could not read private key: open missing.pem: no such file or directory".

Definition hostWithoutKey : http.Host :=
  {| http.NewAppsTransportKeyFromFile := fun _ _ _ => Err noKey;
     http.NewKeyFromFile := fun _ _ _ _ => Err noKey;
     http.NewRequest := fun method url => Ok {| http.Method := method; http.URL := url |};
     http.DoApp := fun _ _ => Err (errorString "401 Unauthorized") |}.

Definition controller : server.GithubAppController :=
  {| server.AtlantisURL := "https://atlantis.example.com";
     server.GithubSetupComplete := false;
     server.GithubHostname := "github.com";
     server.GithubOrg := EmptyString |}.

(** The platform refuses the conversion of an empty code. *)
Definition exchange : server.Exchange :=
  {| server.NewRequest := fun method url => Ok {| http.Method := method; http.URL := url |};
     server.Do := fun _ => Err (errorString "404 Not Found");
     server.Marshal := fun _ => "{}" |}.

Definition callback : server.Request := {| server.Query := [("state", ["xyz"])] |}.

End Fixtures.

(* ===================================================================== *)
(** * vcs, the client file: construction and commit statuses              *)
(* ===================================================================== *)

Module vcs_client.

Import Go github.

(** errors.Wrapf(err, format, args...), for a non-nil [err]. *)
Definition Wrapf (err : error) (format : string) (args : list fmtArg) : error :=
  withMessage err (Sprintf format args).

Section NewGithubClient.

(** The parsed form of a URL and url.Parse, which net/url provides. *)
Variable URL : Type.
Variable Parse : string -> result URL.

(** The base URL that github.NewClient sets. *)
Variable defaultBaseURL : URL.

(** The go-github client: the HTTP client it sends with and the root of
    the API it targets. *)
Record githubClient : Type := { client : http.Client; BaseURL : URL }.

(** NewGithubClient returns a valid GitHub client. *)
Definition NewGithubClient {C : Type} `{vcs.GithubCredentials C}
           (h : http.Host) (hostname : string) (credentials : C)
  : outcome (option githubClient * option error) :=
  match vcs.Client h credentials with
  | Panics v => Panics v
  | Returns httpClient =>
      let client := {| client := httpClient; BaseURL := defaultBaseURL |} in
      if negb (String.eqb hostname "github.com") then
        let baseURL := Sprintf "https://%s/api/v3/" [ArgString hostname] in
        match Parse baseURL with
        | Err err =>
            Returns (None, Some (Wrapf err "Invalid github hostname trying to parse %s"
                                       [ArgString baseURL]))
        | Ok base =>
            Returns (Some {| client := httpClient; BaseURL := base |}, None)
        end
      else Returns (Some client, None)
  end.

End NewGithubClient.

(** ** UpdateStatus *)

Record RepoStatus : Type :=
  { State : option string;
    Description : option string;
    Context : option string;
    TargetURL : option string }.

(** The call that UpdateStatus makes: Repositories.CreateStatus with the
    owner, the repository, the ref and the status. *)
Inductive StatusCall : Type :=
| CreateStatus (owner name ref : string) (status : RepoStatus).

Section UpdateStatus.

(** models.CommitStatus is an integer type with three named values; the
    declarations are in package models. *)
Variables PendingCommitStatus SuccessCommitStatus FailedCommitStatus : Z.

(** The platform's reply to Repositories.CreateStatus. *)
Variable Repositories_CreateStatus : string -> string -> string -> RepoStatus -> result unit.

Definition ghStateOf (state : Z) : string :=
  let ghState := "error" in
  if state =? PendingCommitStatus then "pending"
  else if state =? SuccessCommitStatus then "success"
  else if state =? FailedCommitStatus then "failure"
  else ghState.

(** UpdateStatus updates the status badge on the pull request. *)
Definition UpdateStatus (repo : models.Repo) (pull : models.PullRequest) (state : Z)
           (src description url : string) : option error * list StatusCall :=
  let ghState := ghStateOf state in
  let status := {| State := Some ghState;
                   Description := Some description;
                   Context := Some src;
                   TargetURL := Some url |} in
  let call := CreateStatus (models.Owner repo) (models.Name repo) (models.HeadCommit pull) status in
  match Repositories_CreateStatus (models.Owner repo) (models.Name repo)
                                  (models.HeadCommit pull) status with
  | Err err => (Some err, [call])
  | Ok _ => (None, [call])
  end.

End UpdateStatus.

End vcs_client.

(* ===================================================================== *)
(** * encoding/base64: the URL-safe encoding with padding                 *)
(* ===================================================================== *)

Module base64.

Definition encodeURL : string :=
  "ABCDEFGHIJKLMNOPQRSTUVWXYZabcdefghijklmnopqrstuvwxyz0123456789-_".

Definition padChar : ascii := "="%char.

Definition sextet (n : N) : ascii :=
  match String.get (N.to_nat n) encodeURL with
  | Some c => c
  | None => padChar
  end.

(** base64.URLEncoding.EncodeToString: three bytes give four characters,
    a last group of one or two bytes is padded. *)
Fixpoint EncodeToString (src : list ascii) : string :=
  match src with
  | [] => EmptyString
  | a :: [] =>
      let x := N_of_ascii a in
      String (sextet (x / 4))
        (String (sextet ((x mod 4) * 16))
           (String padChar (String padChar EmptyString)))
  | a :: b :: [] =>
      let x := N_of_ascii a in
      let y := N_of_ascii b in
      String (sextet (x / 4))
        (String (sextet ((x mod 4) * 16 + y / 16))
           (String (sextet ((y mod 16) * 4))
              (String padChar EmptyString)))
  | a :: b :: c :: rest =>
      let x := N_of_ascii a in
      let y := N_of_ascii b in
      let z := N_of_ascii c in
      String (sextet (x / 4))
        (String (sextet ((x mod 4) * 16 + y / 16))
           (String (sextet ((y mod 16) * 4 + z / 64))
              (String (sextet (z mod 64)) (EncodeToString rest))))
  end%N.

End base64.

(* ===================================================================== *)
(** * server: the redirect to the app creation                            *)
(* ===================================================================== *)

Module server_setup.

Import Go.

Definition StatusTemporaryRedirect : Z := 307.

(** githubAppRequest contains the query parameters of the app creation. *)
Record githubAppRequest : Type :=
  { Name : string;
    Description : string;
    URL : string;
    CallbackURL : string;
    SetupURL : string;
    SetupOnUpdate : bool;
    Public : bool;
    WebhookURL : string;
    WebhookSecret : string;
    Events : list string;
    Checks : string;
    Contents : string;
    Issues : string;
    PullRequests : string;
    RepositoryHooks : string;
    Statuses : string }.

(** The fields of url.URL that the handler sets. *)
Record url_URL : Type :=
  { Scheme : string;
    Host : string;
    RawQuery : string;
    Path : string }.

(** What the handler reaches outside itself: the random source, the
    encoding of the query (query.Values and Encode) and the rendering of
    a URL (URL.String). *)
Record Outside : Type :=
  { randRead : Z -> result (list ascii);
    queryEncode : githubAppRequest -> string;
    urlString : url_URL -> string }.

Inductive Event : Type :=
| Served (e : server.Event)
| RandRead (n : Z)
| HeaderAdd (key value : string).

Definition respond (lvl : server.LogLevel) (code : Z) (format : string)
           (args : list fmtArg) : list Event :=
  map Served (server.respond lvl code format args).

(** The buffer of [length] bytes after the random source wrote [data]
    into it. *)
Definition filled (length : Z) (data : list ascii) : list ascii :=
  firstn (Z.to_nat length) (data ++ repeat zero (Z.to_nat length))%list.

Definition newWebhookSecret (o : Outside) (length : Z) : string * option error :=
  match randRead o length with
  | Err err => (EmptyString, Some err)
  | Ok data => (base64.EncodeToString (filled length data), None)
  end.

(** The manifest that New sends along. *)
Definition appRequest (g : server.GithubAppController) (secret : string) : githubAppRequest :=
  {| Name := "Atlantis";
     Description := Sprintf "Terraform Pull Request Automation at %s"
                            [ArgString (server.AtlantisURL g)];
     URL := server.AtlantisURL g;
     CallbackURL := Sprintf "%s/github-app/exchange-code" [ArgString (server.AtlantisURL g)];
     SetupURL := Sprintf "%s/github-app/exchange-code" [ArgString (server.AtlantisURL g)];
     SetupOnUpdate := true;
     Public := false;
     WebhookURL := Sprintf "%s/events" [ArgString (server.AtlantisURL g)];
     WebhookSecret := secret;
     Events := ["check_run"; "create"; "delete"; "pull_request"; "push"; "issue"];
     Checks := "write";
     Contents := "write";
     Issues := "write";
     PullRequests := "write";
     RepositoryHooks := "write";
     Statuses := "write" |}.

(** Where New sends the user. *)
Definition target (g : server.GithubAppController) (o : Outside) (secret : string) : url_URL :=
  let url := {| Scheme := "https";
                Host := server.GithubHostname g;
                RawQuery := queryEncode o (appRequest g secret);
                Path := "/settings/apps/new" |} in
  if negb (String.eqb (server.GithubOrg g) EmptyString) then
    {| Scheme := Scheme url;
       Host := Host url;
       RawQuery := RawQuery url;
       Path := Sprintf "organizations/%s%s" [ArgString (server.GithubOrg g); ArgString (Path url)] |}
  else url.

(** New redirects the user to create a new GitHub app. *)
Definition New (g : server.GithubAppController) (o : Outside) : list Event :=
  if server.GithubSetupComplete g then
    respond server.Error server.StatusBadRequest "Atlantis already has GitHub credentials" []
  else
    RandRead 20
    :: match newWebhookSecret o 20 with
       | (_, Some err) =>
           respond server.Error server.StatusBadGateway
                   "Error initializing webhook secret: %s" [ArgError err]
       | (secret, None) =>
           (HeaderAdd "Location" (urlString o (target g o secret))
            :: respond server.Info StatusTemporaryRedirect "Redirecting to GitHub..." [])%list
       end.

End server_setup.

(* ===================================================================== *)
(** * More platforms and hosts, for the examples                          *)
(* ===================================================================== *)

Module Observations.

(** The format holds no verb: no percent sign. *)
Fixpoint plain (format : string) : bool :=
  match format with
  | EmptyString => true
  | String c rest => negb (Ascii.eqb c "%"%char) && plain rest
  end.

(** What New did to the response writer's body and status. *)
Definition served (events : list server_setup.Event) : list server.Event :=
  flat_map (fun e => match e with server_setup.Served e' => [e'] | _ => [] end) events.

(** The values that New added to the response's headers, with their keys. *)
Definition headersAdded (events : list server_setup.Event) : list (string * string) :=
  flat_map (fun e => match e with
                     | server_setup.HeaderAdd key value => [(key, value)]
                     | _ => []
                     end) events.

(** The numbers of random bytes that New asked for. *)
Definition randomReads (events : list server_setup.Event) : list Z :=
  flat_map (fun e => match e with server_setup.RandRead n => [n] | _ => [] end) events.

(** The requests that the handler sent to the platform. *)
Definition requestsSent (events : list server.Event) : list http.Request :=
  flat_map (fun e => match e with server.ClientDo req => [req] | _ => [] end) events.


End Observations.

Module Scenarios.

Import Go github.

(** A platform that names a next page after every page. *)
Definition endlessFiles (opts : ListOptions) : result (list (option CommitFile) * Response) :=
  Fixtures.page [Fixtures.file "a/main.tf" "modified" None] (Z.abs (Page opts) + 1).

Definition endlessReviews (opts : ListOptions)
  : result (list (option PullRequestReview) * Response) :=
  Fixtures.page [Fixtures.review "COMMENTED"] (Z.abs (Page opts) + 1).

(** A page of reviews without an approval, then a failure. *)
Definition brokenReviews (opts : ListOptions)
  : result (list (option PullRequestReview) * Response) :=
  if Page opts =? 0 then Fixtures.page [Fixtures.review "COMMENTED"] 2
  else Err (errorString "502 Bad Gateway").

Definition endless : vcs.GithubClient :=
  Fixtures.platform endlessFiles endlessReviews "clean" Fixtures.squashOnly Fixtures.merged.

(** A platform that refuses every comment, and cannot be read. *)
Definition readOnly : vcs.GithubClient :=
  {| vcs.PullRequests_ListFiles := fun _ _ _ opts => Fixtures.filePages opts;
     vcs.PullRequests_ListReviews := fun _ _ _ opts => brokenReviews opts;
     vcs.PullRequests_Get := fun _ _ _ => Err (errorString "404 Not Found");
     vcs.Repositories_Get := fun _ _ => Err (errorString "404 Not Found");
     vcs.PullRequests_Merge := fun _ _ _ _ _ => Fixtures.merged;
     vcs.Issues_CreateComment := fun _ _ _ _ => Err (errorString "403 Forbidden") |}.

Definition app : vcs_credentials.GithubAppCredentials :=
  {| vcs_credentials.AppID := 1; vcs_credentials.KeyPath := "atlantis.pem" |}.

Definition appOfClientFile : vcs.GithubAppCredentials :=
  {| vcs.App := 1; vcs.Key := "atlantis.pem" |}.


(** url.Parse on the two hosts of the examples. *)
Definition parse (s : string) : result string :=
  if String.eqb s "https://ghe.example.com/api/v3/" then Ok s
  else Err (errorString "invalid character in host name").

Definition createStatus (owner name ref : string) (status : vcs_client.RepoStatus)
  : result unit := Ok tt.

Definition outside : server_setup.Outside :=
  {| server_setup.randRead := fun n => Ok (repeat "A"%char 3);
     server_setup.queryEncode := fun req => "webhook_secret=" ++ server_setup.WebhookSecret req;
     server_setup.urlString := fun u =>
       server_setup.Scheme u ++ "://" ++ server_setup.Host u ++ "/"
         ++ server_setup.Path u ++ "?" ++ server_setup.RawQuery u |}.

Definition orgController : server.GithubAppController :=
  {| server.AtlantisURL := "https://atlantis.example.com";
     server.GithubSetupComplete := false;
     server.GithubHostname := "github.com";
     server.GithubOrg := "runatlantis" |}.

Definition configured : server.GithubAppController :=
  {| server.AtlantisURL := "https://atlantis.example.com";
     server.GithubSetupComplete := true;
     server.GithubHostname := "github.com";
     server.GithubOrg := EmptyString |}.

(** The platform converts the code. *)
Definition converting : server.Exchange :=
  {| server.NewRequest := fun method url => Ok {| http.Method := method; http.URL := url |};
     server.Do := fun _ =>
       Ok ({| NextPage := 0; StatusCode := 201 |},
           {| server.app_ID := 42; server.app_Key := "PEM";
              server.app_WebhookSecret := "c2VjcmV0"; server.app_Name := "Atlantis" |});
     server.Marshal := fun resp => "{id:" ++ Itoa (server.ID resp) ++ "}" |}.



Definition withCode : server.Request := {| server.Query := [("code", ["abc"; "def"])] |}.

End Scenarios.

(* ===================================================================== *)
(** * Properties                                                          *)
(* ===================================================================== *)

Import Go github.

(** ** Strings *)


(** ** Merge *)

Lemma mergeMethod_selects (repo : option Repository) :
  vcs.mergeMethod repo =
  Design.selectMergeMethod (GetAllowMergeCommit repo) (GetAllowRebaseMerge repo)
                           (GetAllowSquashMerge repo).
Proof.
  unfold vcs.mergeMethod, Design.selectMergeMethod.
  destruct (GetAllowMergeCommit repo), (GetAllowRebaseMerge repo),
    (GetAllowSquashMerge repo); reflexivity.
Qed.

(** C3. Whatever the repository's three allow-flags are, the method that
    MergePull hands to the merge call is merge when merge commits are
    allowed, otherwise rebase when rebase is allowed, otherwise squash
    when squash is allowed, and merge when nothing is allowed; the merge
    call is the second and last call, after the repository was fetched. *)
Theorem MergePull_method_by_flags
        (msg : string) (g : vcs.GithubClient) (pull : models.PullRequest)
        (repo : Repository) :
  let owner := models.Owner (models.BaseRepo pull) in
  let name := models.Name (models.BaseRepo pull) in
  let allowMerge := GetAllowMergeCommit (Some repo) in
  let allowRebase := GetAllowRebaseMerge (Some repo) in
  let allowSquash := GetAllowSquashMerge (Some repo) in
  vcs.Repositories_Get g owner name = Ok repo ->
  exists method,
    snd (vcs.MergePull msg g pull) =
      [vcs.GetRepo owner name;
       vcs.Merge owner name (models.Num pull) msg {| MergeMethod := method |}]
    /\ (allowMerge = true -> method = "merge")
    /\ (allowMerge = false -> allowRebase = true -> method = "rebase")
    /\ (allowMerge = false -> allowRebase = false -> allowSquash = true -> method = "squash")
    /\ (allowMerge = false -> allowRebase = false -> allowSquash = false -> method = "merge").
Proof.
  intros owner name allowMerge allowRebase allowSquash Hrepo.
  exists (vcs.mergeMethod (Some repo)). split.
  - unfold vcs.MergePull. fold owner name. rewrite Hrepo.
    destruct (vcs.PullRequests_Merge g owner name _ msg _) as [res | err].
    + destruct (negb (GetMerged (Some res))); reflexivity.
    + reflexivity.
  - rewrite mergeMethod_selects. fold allowMerge allowRebase allowSquash.
    unfold Design.selectMergeMethod.
    repeat split; intros; subst;
      repeat match goal with H : _ = _ :> bool |- _ => rewrite H end; reflexivity.
Qed.

Lemma MergePull_method_by_flags_witness :
  exists method,
    snd (vcs.MergePull Fixtures.commitMsg (Fixtures.github "clean" Fixtures.merged) Fixtures.pull) =
      [vcs.GetRepo "runatlantis" "atlantis";
       vcs.Merge "runatlantis" "atlantis" 7 Fixtures.commitMsg {| MergeMethod := method |}]
    /\ method = "squash".
Proof.
  destruct (MergePull_method_by_flags Fixtures.commitMsg
              (Fixtures.github "clean" Fixtures.merged) Fixtures.pull Fixtures.squashOnly
              eq_refl) as [method [Hcalls [_ [_ [Hsquash _]]]]].
  exists method. split; [exact Hcalls | apply Hsquash; reflexivity].
Defined.

Example mergeMethod_table :
  Design.selectMergeMethod true true true = "merge"
  /\ Design.selectMergeMethod false true true = "rebase"
  /\ Design.selectMergeMethod false false true = "squash"
  /\ Design.selectMergeMethod false false false = "merge".
Proof. repeat split. Qed.



(** ** Mergeability *)

(** C4. When the fetch of the pull request succeeds, PullIsMergeable
    returns no error, and it returns true exactly when the state that
    the platform reports is clean, unstable or has_hooks. *)
Theorem PullIsMergeable_by_state
        (g : vcs.GithubClient) (repo : models.Repo) (pull : models.PullRequest)
        (pr : PullRequest) :
  vcs.PullRequests_Get g (models.Owner repo) (models.Name repo) (models.Num pull) = Ok pr ->
  exists mergeable,
    fst (vcs.PullIsMergeable g repo pull) = (mergeable, None)
    /\ (mergeable = true <-> In (GetMergeableState (Some pr)) Design.mergeableStates).
Proof.
  intros Hget. unfold vcs.PullIsMergeable, vcs.GetPullRequest. rewrite Hget.
  unfold Design.mergeableStates. cbn [In].
  set (state := GetMergeableState (Some pr)).
  destruct (String.eqb_spec state "clean") as [Hc | Hc];
    destruct (String.eqb_spec state "unstable") as [Hu | Hu];
    destruct (String.eqb_spec state "has_hooks") as [Hh | Hh]; simpl;
    eexists; (split; [reflexivity |]); split; intros H;
    try discriminate; try reflexivity; auto;
    try (destruct H as [H | [H | [H | []]]]; symmetry in H; contradiction).
Qed.

Lemma PullIsMergeable_by_state_witness :
  fst (vcs.PullIsMergeable (Fixtures.github "unstable" Fixtures.merged)
                           Fixtures.repo Fixtures.pull) = (true, None)
  /\ fst (vcs.PullIsMergeable (Fixtures.github "dirty" Fixtures.merged)
                              Fixtures.repo Fixtures.pull) = (false, None).
Proof.
  split.
  - destruct (PullIsMergeable_by_state (Fixtures.github "unstable" Fixtures.merged)
                Fixtures.repo Fixtures.pull _ eq_refl) as [b [Hres Hiff]].
    rewrite Hres. f_equal. apply Hiff. simpl. right. left. reflexivity.
  - destruct (PullIsMergeable_by_state (Fixtures.github "dirty" Fixtures.merged)
                Fixtures.repo Fixtures.pull _ eq_refl) as [b [Hres Hiff]].
    rewrite Hres. f_equal. destruct b; [| reflexivity].
    destruct Hiff as [Hiff _].
    destruct (Hiff eq_refl) as [H | [H | [H | []]]]; discriminate H.
Defined.

(** ** Credentials *)

(** In the client file a failed resolution of the installation ends the
    derivation in a panic with the resolver's error. *)
Lemma Client_panics_on_failed_resolution
      (h : http.Host) (c : vcs.GithubAppCredentials) (n : Z) (err : error) :
  vcs.getInstallationID h c = (n, Some err) -> vcs.Client h c = Panics err.
Proof. intros H. simpl. rewrite H. reflexivity. Qed.

(** In the credentials file the derivation hands back a client and no
    error, or no client and an error. *)
Lemma Client_returns_client_or_error
      (h : http.Host) (c : vcs_credentials.GithubAppCredentials) :
  (exists client, vcs_credentials.Client h c = (Some client, None))
  \/ (exists err, vcs_credentials.Client h c = (None, Some err)).
Proof.
  simpl. destruct (vcs_credentials.getInstallationID h c) as [n [err |]].
  - right. exists err. reflexivity.
  - destruct (http.NewKeyFromFile h _ _ n _) as [itr | err].
    + left. eexists. reflexivity.
    + right. exists err. reflexivity.
Qed.

(** C1. On a host whose key file cannot be read, the derivation of the
    client file does not return: it panics with the key-loading error.
    The derivation of the credentials file returns that error next to a
    nil client on the same host. *)
Theorem Client_panics_on_unreadable_key :
  vcs.Client Fixtures.hostWithoutKey {| vcs.App := 1; vcs.Key := "missing.pem" |}
    = Panics Fixtures.noKey
  /\ vcs_credentials.Client Fixtures.hostWithoutKey
       {| vcs_credentials.AppID := 1; vcs_credentials.KeyPath := "missing.pem" |}
     = (None, Some Fixtures.noKey).
Proof. split; reflexivity. Qed.

(** ** Installation resolution *)

Lemma parseDigits_value (s : string) (n m : Z) :
  parseDigits s n = Ok m -> Design.digitsValue s n = Some m.
Proof.
  revert n. induction s as [| c s IH]; cbn [parseDigits Design.digitsValue]; intros n.
  - congruence.
  - destruct (digitVal c) as [d |]; [| discriminate].
    destruct (maxUint64 / 10 + 1 <=? n); [discriminate |].
    destruct (maxUint64 <? n * 10 + d); [discriminate |].
    apply IH.
Qed.


Lemma ParseUint_value (s : string) (m : Z) :
  ParseUint s = Ok m -> Design.unsignedOf s = Some m.
Proof.
  destruct s as [| c s]; [discriminate |].
  unfold ParseUint, Design.unsignedOf. apply parseDigits_value.
Qed.


(** The text that ParseInt hands to ParseUint, and the sign it keeps. *)
Lemma integerOf_body (c : ascii) (rest : string) :
  Design.integerOf (String c rest) =
  let neg := Ascii.eqb c "-"%char in
  let body := if (Ascii.eqb c "+"%char || neg)%bool then rest else String c rest in
  if neg then option_map Z.opp (Design.unsignedOf body) else Design.unsignedOf body.
Proof.
  unfold Design.integerOf.
  destruct (Ascii.eqb c "-") eqn:Hm; cbv zeta.
  - rewrite orb_true_r. reflexivity.
  - rewrite orb_false_r. destruct (Ascii.eqb c "+"); reflexivity.
Qed.


Lemma ParseInt_value (s : string) (n : Z) :
  ParseInt s = (n, None) -> Design.integerOf s = Some n.
Proof.
  destruct s as [| c rest]; [discriminate |].
  rewrite integerOf_body. unfold ParseInt. cbv zeta.
  set (neg := Ascii.eqb c "-"%char).
  set (body := if (Ascii.eqb c "+"%char || neg)%bool then rest else String c rest).
  destruct (ParseUint body) as [un | e] eqn:Hp.
  - apply ParseUint_value in Hp. rewrite Hp.
    destruct (negb neg && (2 ^ 63 <=? un))%bool; [discriminate |].
    destruct (neg && (2 ^ 63 <? un))%bool; [discriminate |].
    destruct neg; simpl; congruence.
  - destruct (match e with errorString m => String.eqb m "value out of range" | _ => false end);
      [destruct neg |]; discriminate.
Qed.

Lemma digitVal_range (c : ascii) (d : Z) : digitVal c = Some d -> 0 <= d <= 9.
Proof.
  unfold digitVal.
  destruct ((48 <=? Z.of_N (N_of_ascii c)) && (Z.of_N (N_of_ascii c) <=? 57))%bool eqn:Hd;
    [| discriminate].
  intros H. inversion H. apply andb_prop in Hd. destruct Hd as [Hlo Hhi].
  apply Z.leb_le in Hlo. apply Z.leb_le in Hhi. lia.
Qed.

Lemma parseDigits_nonneg (s : string) (n m : Z) :
  0 <= n -> parseDigits s n = Ok m -> 0 <= m.
Proof.
  revert n. induction s as [| c s IH]; cbn [parseDigits]; intros n Hn.
  - intros H. inversion H. subst m. exact Hn.
  - destruct (digitVal c) as [d |] eqn:Hd; [| discriminate].
    apply digitVal_range in Hd.
    destruct (maxUint64 / 10 + 1 <=? n); [discriminate |].
    destruct (maxUint64 <? n * 10 + d); [discriminate |].
    apply IH. lia.
Qed.

(** A resolved installation id fits int64. *)
Lemma ParseInt_range (s : string) (n : Z) :
  ParseInt s = (n, None) -> - 2 ^ 63 <= n < 2 ^ 63.
Proof.
  destruct s as [| c rest]; [discriminate |].
  unfold ParseInt. cbv zeta.
  set (neg := Ascii.eqb c "-"%char).
  set (body := if (Ascii.eqb c "+"%char || neg)%bool then rest else String c rest).
  destruct (ParseUint body) as [un | e] eqn:Hp.
  - assert (Hun : 0 <= un).
    { destruct body as [| b body']; [discriminate |].
      unfold ParseUint in Hp. eapply parseDigits_nonneg; [| exact Hp]. lia. }
    destruct neg; cbn [negb andb].
    + destruct (2 ^ 63 <? un) eqn:Hc; [discriminate |].
      apply Z.ltb_ge in Hc. intros Heq. inversion Heq. subst n. lia.
    + destruct (2 ^ 63 <=? un) eqn:Hc; [discriminate |].
      apply Z.leb_gt in Hc. intros Heq. inversion Heq. subst n. lia.
  - destruct (match e with errorString m => String.eqb m "value out of range" | _ => false end);
      [destruct neg |]; discriminate.
Qed.

(** The two files resolve the installation alike. *)
Lemma getInstallationID_agree (h : http.Host) (c : vcs_credentials.GithubAppCredentials) :
  vcs.getInstallationID h
    {| vcs.App := vcs_credentials.AppID c; vcs.Key := vcs_credentials.KeyPath c |}
  = vcs_credentials.getInstallationID h c.
Proof. reflexivity. Qed.



Example ParseInt_signs :
  ParseInt "-42" = (-42, None) /\ ParseInt "+42" = (42, None)
  /\ snd (ParseInt "4_2") = Some (NumError "ParseInt" "4_2" ErrSyntax)
  /\ ParseInt "9223372036854775808"
     = (9223372036854775807, Some (NumError "ParseInt" "9223372036854775808" ErrRange)).
Proof. repeat split. Qed.

(** ** The code exchange *)

(** C10. With the setup not complete and no code in the query,
    ExchangeCode writes the status 200 and the line that it ignores the
    callback, and goes on: it builds the request of the exchange for the
    empty code, sends it when it could be built, and writes a second
    status and a second body to the same writer. *)
Theorem ExchangeCode_missing_code_goes_on
        (g : server.GithubAppController) (x : server.Exchange) (r : server.Request) :
  server.GithubSetupComplete g = false ->
  server.Get (server.Query r) "code" = EmptyString ->
  let ignoring := "Ignoring callback, missing code query parameter" in
  let events := server.ExchangeCode g x r in
  exists rest code body,
    events = ([server.LoggerLog server.Debug ignoring [];
               server.WriteHeader 200;
               server.Write (ignoring ++ nl);
               server.LoggerLog server.Debug "Exchanging GitHub app code for app credentials" [];
               server.HTTPNewRequest "POST" "/app-manifests//conversions"] ++ rest)%list
    /\ Design.headersWritten events = [200; code]
    /\ Design.bodiesWritten events = [ignoring ++ nl; body]
    /\ Design.exchangesAttempted events = [("POST", "/app-manifests//conversions")]
    /\ (forall req, server.NewRequest x "POST" "/app-manifests//conversions" = Ok req ->
                    In (server.ClientDo req) rest).
Proof.
  intros Hsetup Hcode ignoring events. subst events.
  unfold server.ExchangeCode. rewrite Hsetup, Hcode. simpl.
  destruct (server.NewRequest x "POST" "/app-manifests//conversions") as [req | err].
  - destruct (server.Do x req) as [[res app] | err].
    + destruct (400 <=? StatusCode res).
      * do 3 eexists. repeat split. intros req' Heq. inversion Heq. left. reflexivity.
      * do 3 eexists. repeat split. intros req' Heq. inversion Heq. left. reflexivity.
    + do 3 eexists. repeat split. intros req' Heq. inversion Heq. left. reflexivity.
  - do 3 eexists. repeat split. intros req' Heq. discriminate Heq.
Qed.

Lemma ExchangeCode_missing_code_goes_on_witness :
  exists rest code body,
    server.ExchangeCode Fixtures.controller Fixtures.exchange Fixtures.callback
    = ([server.LoggerLog server.Debug "Ignoring callback, missing code query parameter" [];
        server.WriteHeader 200;
        server.Write ("Ignoring callback, missing code query parameter" ++ nl);
        server.LoggerLog server.Debug "Exchanging GitHub app code for app credentials" [];
        server.HTTPNewRequest "POST" "/app-manifests//conversions"] ++ rest)%list
    /\ Design.headersWritten
         (server.ExchangeCode Fixtures.controller Fixtures.exchange Fixtures.callback)
       = [200; code]
    /\ Design.bodiesWritten
         (server.ExchangeCode Fixtures.controller Fixtures.exchange Fixtures.callback)
       = ["Ignoring callback, missing code query parameter" ++ nl; body].
Proof.
  destruct (ExchangeCode_missing_code_goes_on Fixtures.controller Fixtures.exchange
              Fixtures.callback eq_refl eq_refl) as [rest [code [body [H1 [H2 [H3 _]]]]]].
  cbv zeta in H1, H2, H3.
  exists rest, code, body. repeat split; assumption.
Defined.

Example ExchangeCode_missing_code_run :
  server.ExchangeCode Fixtures.controller Fixtures.exchange Fixtures.callback
  = [server.LoggerLog server.Debug "Ignoring callback, missing code query parameter" [];
     server.WriteHeader 200;
     server.Write ("Ignoring callback, missing code query parameter" ++ nl);
     server.LoggerLog server.Debug "Exchanging GitHub app code for app credentials" [];
     server.HTTPNewRequest "POST" "/app-manifests//conversions";
     server.ClientDo {| http.Method := "POST"; http.URL := "/app-manifests//conversions" |};
     server.LoggerLog server.Error "Error exchanging code for token: 404 Not Found" [];
     server.WriteHeader 502;
     server.Write ("Error exchanging code for token: 404 Not Found" ++ nl)].
Proof. reflexivity. Qed.

(** ** Pagination *)

Lemma option_map_after_nil {A : Type} (m : option (vcs.Eff A)) :
  option_map (fun r => (fst r, ([] ++ snd r)%list)) m = m.
Proof. destruct m as [[a calls] |]; reflexivity. Qed.

Lemma option_map_after_cons {A : Type} (c : vcs.Call) (cs : list vcs.Call)
      (m : option (vcs.Eff A)) :
  option_map (vcs.after c) (option_map (fun r => (fst r, (cs ++ snd r)%list)) m)
  = option_map (fun r => (fst r, ((c :: cs) ++ snd r)%list)) m.
Proof. destruct m as [[a calls] |]; reflexivity. Qed.

Lemma entries_cons {A : Type} (p : Z) (items : list A) (rest : list (Z * list A)) :
  Design.entries ((p, items) :: rest) = (items ++ Design.entries rest)%list.
Proof. reflexivity. Qed.

(** The loop over a page's files appends, file by file, what
    [Design.fileNames] lists. *)
Lemma fold_appendFile (items : list (option CommitFile)) (files : list string) :
  fold_left vcs.appendFile items files = (files ++ flat_map Design.fileNames items)%list.
Proof.
  revert files. induction items as [| f items IH]; intros files; simpl.
  - now rewrite app_nil_r.
  - rewrite IH. unfold vcs.appendFile, Design.fileNames.
    destruct (String.eqb (GetStatus f) "renamed"); simpl;
      repeat rewrite <- app_assoc; reflexivity.
Qed.

Section FilesWalk.

Variable g : vcs.GithubClient.
Variable repo : models.Repo.
Variable pull : models.PullRequest.

Let fetch : ListOptions -> result (list (option CommitFile) * Response) :=
  vcs.PullRequests_ListFiles g (models.Owner repo) (models.Name repo) (models.Num pull).

Let call (p : Z) : vcs.Call :=
  vcs.ListFiles (models.Owner repo) (models.Name repo) (models.Num pull) (vcs.pageOpts p).

(** Over the pages that the platform delivers the loop only collects:
    it arrives at the next page with their files appended. *)
Lemma GetModifiedFiles_loop_delivered (p q : Z) (pages : list (Z * list (option CommitFile))) :
  Design.Delivered fetch p pages q ->
  forall (fuel : nat) (files : list string),
    vcs.GetModifiedFiles_loop (List.length pages + fuel) g repo pull files p
    = option_map (fun r => (fst r, (map call (map fst pages) ++ snd r)%list))
        (vcs.GetModifiedFiles_loop fuel g repo pull
           (files ++ flat_map Design.fileNames (Design.entries pages))%list q).
Proof.
  induction 1 as [p | p items resp rest q Hfetch Hnext Hrest IH]; intros fuel files.
  - simpl. rewrite app_nil_r. symmetry. apply option_map_after_nil.
  - cbn [List.length Nat.add vcs.GetModifiedFiles_loop].
    unfold fetch in Hfetch. rewrite Hfetch.
    apply Z.eqb_neq in Hnext. rewrite Hnext.
    rewrite IH, fold_appendFile, entries_cons, flat_map_app, <- app_assoc.
    apply option_map_after_cons.
Qed.

Lemma GetModifiedFiles_delivered (q : Z) (pages : list (Z * list (option CommitFile)))
      (fuel : nat) :
  Design.Delivered fetch 0 pages q ->
  (List.length pages < fuel)%nat ->
  exists fuel',
    vcs.GetModifiedFiles fuel g repo pull
    = option_map (fun r => (fst r, (map call (map fst pages) ++ snd r)%list))
        (vcs.GetModifiedFiles_loop (S fuel') g repo pull
           (flat_map Design.fileNames (Design.entries pages)) q).
Proof.
  intros Hwalk Hfuel. exists (fuel - List.length pages - 1)%nat.
  unfold vcs.GetModifiedFiles.
  replace fuel with (List.length pages + S (fuel - List.length pages - 1))%nat at 1 by lia.
  rewrite (GetModifiedFiles_loop_delivered _ _ _ Hwalk). reflexivity.
Qed.

(** C5. When the platform delivers some pages of changed files and
    fails on the page after them, GetModifiedFiles returns that error
    and, next to it, the names collected from the pages delivered
    before the failure. *)
Theorem GetModifiedFiles_partial_on_error
        (q : Z) (pages : list (Z * list (option CommitFile))) (err : error) (fuel : nat) :
  Design.Delivered fetch 0 pages q ->
  fetch (vcs.pageOpts q) = Err err ->
  (List.length pages < fuel)%nat ->
  vcs.GetModifiedFiles fuel g repo pull
  = Some ((flat_map Design.fileNames (Design.entries pages), Some err),
          map call (map fst pages ++ [q])%list).
Proof.
  intros Hwalk Hfail Hfuel.
  destruct (GetModifiedFiles_delivered q pages fuel Hwalk Hfuel) as [fuel' ->].
  cbn [vcs.GetModifiedFiles_loop]. unfold fetch in Hfail. rewrite Hfail.
  simpl. rewrite !map_app. reflexivity.
Qed.

(** C7. When the platform delivers the pages of changed files up to a
    last one, GetModifiedFiles returns, with no error, the files in the
    order of the pages and, within a page, in the order of its entries:
    for every entry its name, and for a renamed entry its previous
    name right after the new one; no name is dropped as a duplicate. *)
Theorem GetModifiedFiles_order_and_renames
        (q : Z) (pages : list (Z * list (option CommitFile)))
        (items : list (option CommitFile)) (resp : Response) (fuel : nat) :
  Design.Delivered fetch 0 pages q ->
  fetch (vcs.pageOpts q) = Ok (items, resp) ->
  NextPage resp = 0 ->
  (List.length pages < fuel)%nat ->
  vcs.GetModifiedFiles fuel g repo pull
  = Some ((flat_map Design.fileNames (Design.entries pages ++ items)%list, None),
          map call (map fst pages ++ [q])%list).
Proof.
  intros Hwalk Hlast Hnext Hfuel.
  destruct (GetModifiedFiles_delivered q pages fuel Hwalk Hfuel) as [fuel' ->].
  cbn [vcs.GetModifiedFiles_loop]. unfold fetch in Hlast. rewrite Hlast, Hnext.
  simpl. rewrite fold_appendFile, flat_map_app, !map_app. reflexivity.
Qed.

End FilesWalk.

(** Every entry contributes its name once, a renamed entry its previous
    name as well: nothing is merged. *)
Lemma fileNames_count (items : list (option CommitFile)) :
  List.length (flat_map Design.fileNames items)
  = (List.length items
     + List.length (filter (fun f => String.eqb (GetStatus f) "renamed") items))%nat.
Proof.
  induction items as [| f items IH]; simpl; [reflexivity |].
  rewrite length_app, IH. unfold Design.fileNames.
  destruct (String.eqb (GetStatus f) "renamed"); simpl; lia.
Qed.

Lemma GetModifiedFiles_partial_on_error_witness :
  vcs.GetModifiedFiles 5
    (Fixtures.platform Fixtures.brokenFilePages Fixtures.reviewPages "clean"
                       Fixtures.squashOnly Fixtures.merged)
    Fixtures.repo Fixtures.pull
  = Some ((["a/main.tf"], Some (errorString "502 Bad Gateway")),
          [vcs.ListFiles "runatlantis" "atlantis" 7 {| Page := 0; PerPage := 300 |};
           vcs.ListFiles "runatlantis" "atlantis" 7 {| Page := 2; PerPage := 300 |}]).
Proof.
  apply (GetModifiedFiles_partial_on_error
           (Fixtures.platform Fixtures.brokenFilePages Fixtures.reviewPages "clean"
                              Fixtures.squashOnly Fixtures.merged)
           Fixtures.repo Fixtures.pull 2
           [(0, [Fixtures.file "a/main.tf" "modified" None])]
           (errorString "502 Bad Gateway") 5).
  - eapply Design.Delivered_cons with (resp := {| NextPage := 2; StatusCode := 200 |}).
    + reflexivity.
    + simpl. lia.
    + apply Design.Delivered_nil.
  - reflexivity.
  - simpl. lia.
Defined.

Lemma GetModifiedFiles_order_and_renames_witness :
  vcs.GetModifiedFiles 5 (Fixtures.github "clean" Fixtures.merged) Fixtures.repo Fixtures.pull
  = Some ((["a/main.tf"; "b/new.tf"; "b/old.tf"; "a/main.tf"], None),
          [vcs.ListFiles "runatlantis" "atlantis" 7 {| Page := 0; PerPage := 300 |};
           vcs.ListFiles "runatlantis" "atlantis" 7 {| Page := 2; PerPage := 300 |}]).
Proof.
  apply (GetModifiedFiles_order_and_renames
           (Fixtures.github "clean" Fixtures.merged) Fixtures.repo Fixtures.pull 2
           [(0, [Fixtures.file "a/main.tf" "modified" None;
                 Fixtures.file "b/new.tf" "renamed" (Some "b/old.tf")])]
           [Fixtures.file "a/main.tf" "added" None]
           {| NextPage := 0; StatusCode := 200 |} 5).
  - eapply Design.Delivered_cons with (resp := {| NextPage := 2; StatusCode := 200 |}).
    + reflexivity.
    + simpl. lia.
    + apply Design.Delivered_nil.
  - reflexivity.
  - reflexivity.
  - simpl. lia.
Defined.

(** ** Approval *)

Lemma anyApproved_spec (pageReviews : list (option PullRequestReview)) :
  vcs.anyApproved pageReviews = true <-> Design.hasApproved pageReviews.
Proof.
  unfold Design.hasApproved. induction pageReviews as [| review rest IH]; simpl.
  - split; [discriminate | intros [r [[] _]]].
  - destruct review as [r |]; simpl.
    + unfold GetState, getString.
      destruct (String.eqb_spec (orEmpty (State r)) "APPROVED") as [Heq | Hne].
      * split; [| reflexivity]. intros _. exists r. split; [left; reflexivity |].
        destruct (State r) as [s |]; simpl in Heq; [now subst | discriminate].
      * rewrite IH. split.
        -- intros [r' [Hin Hst]]. exists r'. split; [right; exact Hin | exact Hst].
        -- intros [r' [[Hhd | Hin] Hst]].
           ++ inversion Hhd. subst r'. rewrite Hst in Hne. now contradiction Hne.
           ++ exists r'. split; assumption.
    + rewrite IH. split.
      * intros [r' [Hin Hst]]. exists r'. split; [right; exact Hin | exact Hst].
      * intros [r' [[Hhd | Hin] Hst]]; [discriminate |]. exists r'. split; assumption.
Qed.

Lemma anyApproved_false (pageReviews : list (option PullRequestReview)) :
  vcs.anyApproved pageReviews = false <-> ~ Design.hasApproved pageReviews.
Proof.
  rewrite <- anyApproved_spec. destruct (vcs.anyApproved pageReviews); split;
    congruence.
Qed.

Section ReviewsWalk.

Variable g : vcs.GithubClient.
Variable repo : models.Repo.
Variable pull : models.PullRequest.

Let fetch : ListOptions -> result (list (option PullRequestReview) * Response) :=
  vcs.PullRequests_ListReviews g (models.Owner repo) (models.Name repo) (models.Num pull).

Let call (p : Z) : vcs.Call :=
  vcs.ListReviews (models.Owner repo) (models.Name repo) (models.Num pull) (vcs.pageOpts p).

(** Over delivered pages without an approval the loop only moves on. *)
Lemma PullIsApproved_loop_delivered
      (p q : Z) (pages : list (Z * list (option PullRequestReview))) :
  Design.Delivered fetch p pages q ->
  (forall pg, In pg pages -> ~ Design.hasApproved (snd pg)) ->
  forall fuel : nat,
    vcs.PullIsApproved_loop (List.length pages + fuel) g repo pull p
    = option_map (fun r => (fst r, (map call (map fst pages) ++ snd r)%list))
        (vcs.PullIsApproved_loop fuel g repo pull q).
Proof.
  induction 1 as [p | p items resp rest q Hfetch Hnext Hrest IH]; intros Hnone fuel.
  - simpl. symmetry. apply option_map_after_nil.
  - cbn [List.length Nat.add vcs.PullIsApproved_loop].
    unfold fetch in Hfetch. rewrite Hfetch.
    assert (Hitems : vcs.anyApproved items = false).
    { apply anyApproved_false. apply (Hnone (p, items)). left. reflexivity. }
    rewrite Hitems. apply Z.eqb_neq in Hnext. rewrite Hnext.
    rewrite IH by (intros pg Hin; apply Hnone; right; exact Hin).
    apply option_map_after_cons.
Qed.

(** C6. When the pages delivered so far hold no approved review, the
    outcome is decided on the page after them: if that page holds an
    approved review, PullIsApproved returns true with no error and has
    fetched the pages up to this one and none after it, whatever next
    page the platform names; if it holds none and names no next page,
    no page of the walk held an approved review and PullIsApproved
    returns false with no error. *)
Theorem PullIsApproved_short_circuits
        (q : Z) (pages : list (Z * list (option PullRequestReview)))
        (items : list (option PullRequestReview)) (resp : Response) (fuel : nat) :
  Design.Delivered fetch 0 pages q ->
  (forall pg, In pg pages -> ~ Design.hasApproved (snd pg)) ->
  fetch (vcs.pageOpts q) = Ok (items, resp) ->
  (List.length pages < fuel)%nat ->
  let fetched := map call (map fst pages ++ [q])%list in
  (Design.hasApproved items ->
   vcs.PullIsApproved fuel g repo pull = Some ((true, None), fetched))
  /\ (~ Design.hasApproved items -> NextPage resp = 0 ->
      vcs.PullIsApproved fuel g repo pull = Some ((false, None), fetched)).
Proof.
  intros Hwalk Hnone Hpage Hfuel fetched. subst fetched.
  unfold vcs.PullIsApproved.
  replace fuel with (List.length pages + S (fuel - List.length pages - 1))%nat by lia.
  rewrite (PullIsApproved_loop_delivered _ _ _ Hwalk Hnone).
  cbn [vcs.PullIsApproved_loop]. unfold fetch in Hpage. rewrite Hpage.
  split.
  - intros Happroved. apply anyApproved_spec in Happroved. rewrite Happroved.
    simpl. rewrite !map_app. reflexivity.
  - intros Hnot Hnext. apply anyApproved_false in Hnot. rewrite Hnot, Hnext.
    simpl. rewrite !map_app. reflexivity.
Qed.

End ReviewsWalk.

Lemma PullIsApproved_short_circuits_witness :
  vcs.PullIsApproved 5 (Fixtures.github "clean" Fixtures.merged) Fixtures.repo Fixtures.pull
  = Some ((true, None),
          [vcs.ListReviews "runatlantis" "atlantis" 7 {| Page := 0; PerPage := 300 |};
           vcs.ListReviews "runatlantis" "atlantis" 7 {| Page := 2; PerPage := 300 |}])
  /\ vcs.PullIsApproved 5
       (Fixtures.platform Fixtures.filePages Fixtures.unapprovedPages "clean"
                          Fixtures.squashOnly Fixtures.merged)
       Fixtures.repo Fixtures.pull
     = Some ((false, None),
             [vcs.ListReviews "runatlantis" "atlantis" 7 {| Page := 0; PerPage := 300 |};
              vcs.ListReviews "runatlantis" "atlantis" 7 {| Page := 2; PerPage := 300 |}]).
Proof.
  split.
  - apply (PullIsApproved_short_circuits
             (Fixtures.github "clean" Fixtures.merged) Fixtures.repo Fixtures.pull 2
             [(0, [Fixtures.review "COMMENTED"; None])]
             [Fixtures.review "CHANGES_REQUESTED"; Fixtures.review "APPROVED"]
             {| NextPage := 3; StatusCode := 200 |} 5).
    + eapply Design.Delivered_cons with (resp := {| NextPage := 2; StatusCode := 200 |}).
      * reflexivity.
      * simpl. lia.
      * apply Design.Delivered_nil.
    + intros pg [<- | []]. apply anyApproved_false. reflexivity.
    + reflexivity.
    + simpl. lia.
    + apply anyApproved_spec. reflexivity.
  - apply (PullIsApproved_short_circuits
             (Fixtures.platform Fixtures.filePages Fixtures.unapprovedPages "clean"
                                Fixtures.squashOnly Fixtures.merged)
             Fixtures.repo Fixtures.pull 2
             [(0, [Fixtures.review "COMMENTED"; None])]
             [Fixtures.review "DISMISSED"]
             {| NextPage := 0; StatusCode := 200 |} 5).
    + eapply Design.Delivered_cons with (resp := {| NextPage := 2; StatusCode := 200 |}).
      * reflexivity.
      * simpl. lia.
      * apply Design.Delivered_nil.
    + intros pg [<- | []]. apply anyApproved_false. reflexivity.
    + reflexivity.
    + simpl. lia.
    + apply anyApproved_false. reflexivity.
    + reflexivity.
Defined.

(** ** The comment chunker *)

Section Chunker.

Variables sepEnd sepStart : list ascii.

Lemma lastBreak_bound (window : list ascii) (pos best : nat) :
  (best <= pos)%nat ->
  (common.lastBreak window pos best <= pos + List.length window)%nat.
Proof.
  revert pos best. induction window as [| c rest IH]; intros pos best Hle; simpl.
  - lia.
  - destruct (Ascii.eqb c newline).
    + specialize (IH (S pos) (S pos)). lia.
    + specialize (IH (S pos) best). lia.
Qed.

Lemma cutPoint_bound (budget : Z) (text : list ascii) :
  (common.cutPoint budget text <= Z.to_nat budget)%nat.
Proof.
  unfold common.cutPoint.
  pose proof (lastBreak_bound (firstn (Z.to_nat budget) text) 0 0 (le_n 0)) as Hb.
  rewrite length_firstn in Hb.
  destruct (common.lastBreak (firstn (Z.to_nat budget) text) 0 0); lia.
Qed.

(** The pieces, put together again, are the text. *)
Lemma pieces_concat (budget : Z) (text : list ascii) :
  List.concat (common.pieces budget text) = text.
Proof.
  funelim (common.pieces budget text).
  - simpl. apply app_nil_r.
  - simpl.
    match goal with IH : List.concat _ = _ |- _ => rewrite IH end.
    apply firstn_skipn.
Qed.

(** No piece is longer than the room left by the markers. *)
Lemma pieces_bound (budget : Z) (text : list ascii) :
  0 < budget ->
  Forall (fun p => common.blen p <= budget) (common.pieces budget text).
Proof.
  intros Hpos. funelim (common.pieces budget text).
  - constructor; [| constructor].
    match goal with H : _ \/ _ |- _ => destruct H end; lia.
  - constructor.
    + pose proof (cutPoint_bound budget text) as Hc.
      unfold common.blen. rewrite length_firstn. lia.
    + match goal with IH : _ -> Forall _ _ |- _ => apply IH end. exact Hpos.
Qed.

Lemma stripPrefix_app (marker text : list ascii) :
  common.stripPrefix marker (marker ++ text)%list = Some text.
Proof.
  induction marker as [| a marker IH]; simpl.
  - destruct text; reflexivity.
  - rewrite Ascii.eqb_refl. exact IH.
Qed.

Lemma stripSuffix_app (marker text : list ascii) :
  common.stripSuffix marker (text ++ marker)%list = Some text.
Proof.
  unfold common.stripSuffix. rewrite rev_app_distr, stripPrefix_app. simpl.
  now rewrite rev_involutive.
Qed.

(** Stripping the markers undoes the wrapping. *)
Lemma unwrap_wrap (first : bool) (ps : list (list ascii)) :
  common.unwrap sepEnd sepStart first (common.wrap sepEnd sepStart first ps)
  = Some (List.concat ps).
Proof.
  revert first. induction ps as [| p rest IH]; intros first; [reflexivity |].
  cbn [common.wrap common.unwrap].
  assert (Hlead : (if first then Some ((if first then [] else sepStart) ++ p
                                        ++ match rest with [] => [] | _ :: _ => sepEnd end)%list
                   else common.stripPrefix sepStart
                          ((if first then [] else sepStart) ++ p
                             ++ match rest with [] => [] | _ :: _ => sepEnd end)%list)
                  = Some (p ++ match rest with [] => [] | _ :: _ => sepEnd end)%list).
  { destruct first; [reflexivity | apply stripPrefix_app]. }
  rewrite Hlead. destruct rest as [| p' rest'].
  - simpl. now rewrite !app_nil_r.
  - specialize (IH false). cbn [common.wrap] in IH |- *.
    rewrite stripSuffix_app, IH. reflexivity.
Qed.

Lemma wrap_bound (budget : Z) (first : bool) (ps : list (list ascii)) :
  Forall (fun p => common.blen p <= budget) ps ->
  Forall (fun seg => common.blen seg <= budget + common.blen sepEnd + common.blen sepStart)
         (common.wrap sepEnd sepStart first ps).
Proof.
  intros Hps. revert first. induction Hps as [| p rest Hp Hrest IH]; intros first.
  - constructor.
  - cbn [common.wrap]. constructor; [| apply IH].
    unfold common.blen in *. rewrite !length_app.
    destruct first, rest; simpl; lia.
Qed.

End Chunker.

Lemma length_list_ascii (s : string) :
  List.length (list_ascii_of_string s) = String.length s.
Proof. induction s as [| c s IH]; simpl; [reflexivity | now rewrite IH]. Qed.

Lemma len_string_of_list (l : list ascii) : len (string_of_list_ascii l) = common.blen l.
Proof.
  unfold len, common.blen. f_equal.
  induction l as [| c l IH]; simpl; [reflexivity | now rewrite IH].
Qed.

Lemma map_list_string_list (l : list (list ascii)) :
  map list_ascii_of_string (map string_of_list_ascii l) = l.
Proof.
  induction l as [| x l IH]; simpl; [reflexivity |].
  now rewrite list_ascii_of_string_of_list_ascii, IH.
Qed.

(** Whatever the maximum and the markers are, as long as the markers
    leave room: the segments read back as the comment, and none is
    longer than the maximum. *)
Lemma SplitComment_sound (comment : string) (maxSize : Z) (sepEnd sepStart : string) :
  0 < maxSize - len sepEnd - len sepStart ->
  common.Reassemble sepEnd sepStart (common.SplitComment comment maxSize sepEnd sepStart)
  = Some comment
  /\ Forall (fun seg => len seg <= maxSize)
            (common.SplitComment comment maxSize sepEnd sepStart).
Proof.
  intros Hroom. unfold common.SplitComment, common.Reassemble.
  destruct (len comment <=? maxSize) eqn:Hfit.
  - apply Z.leb_le in Hfit. split.
    + simpl. now rewrite string_of_list_ascii_of_string.
    + constructor; [exact Hfit | constructor].
  - cbv zeta. split.
    + rewrite map_list_string_list, unwrap_wrap, pieces_concat. simpl.
      now rewrite string_of_list_ascii_of_string.
    + apply Forall_map.
      eapply Forall_impl;
        [| apply wrap_bound, pieces_bound; exact Hroom].
      intros seg Hseg. cbv beta in Hseg. rewrite len_string_of_list.
      unfold common.blen in *. rewrite !length_list_ascii in Hseg.
      unfold len in *. lia.
Qed.

(** C2. For every comment, the segments that the chunker makes of it
    for the maximum of 65536 and the two continuation markers of
    CreateComment read back as the comment when the markers are taken
    off and the rest is concatenated in order, and every segment, its
    markers included, is at most 65536 long. *)
Theorem CreateComment_segments (comment : string) :
  let segments := common.SplitComment comment vcs.maxCommentLength vcs.sepEnd vcs.sepStart in
  common.Reassemble vcs.sepEnd vcs.sepStart segments = Some comment
  /\ Forall (fun seg => len seg <= 65536) segments.
Proof.
  apply (SplitComment_sound comment vcs.maxCommentLength vcs.sepEnd vcs.sepStart).
  vm_compute. reflexivity.
Qed.

(** On a platform that accepts every comment, CreateComment posts the
    segments, one comment each, in order. *)
Lemma postComments_all (g : vcs.GithubClient) (repo : models.Repo) (pullNum : Z)
      (comments : list string) :
  (forall c, vcs.Issues_CreateComment g (models.Owner repo) (models.Name repo) pullNum
               {| Body := Some c |} = Ok tt) ->
  vcs.postComments g repo pullNum comments
  = (None, map (fun c => vcs.CreateIssueComment (models.Owner repo) (models.Name repo)
                           pullNum {| Body := Some c |}) comments).
Proof.
  intros Hok. induction comments as [| c rest IH]; simpl; [reflexivity |].
  rewrite Hok, IH. reflexivity.
Qed.

Example SplitComment_lines :
  let text := "ab" ++ nl ++ "cdefgh" ++ nl ++ "ijklmnopqrstuvw" ++ nl ++ "x" in
  common.SplitComment text 10 "E" ">"
  = ["ab" ++ nl ++ "E"; ">cdefgh" ++ nl ++ "E"; ">ijklmnopE"; ">qrstuvw" ++ nl ++ "E"; ">x"]
  /\ common.Reassemble "E" ">" (common.SplitComment text 10 "E" ">") = Some text
  /\ common.SplitComment text 100 "E" ">" = [text].
Proof. repeat split. Qed.

(* ===================================================================== *)
(** * Further properties of the client                                    *)
(* ===================================================================== *)

(** ** Posting comments *)

Section Posting.

Variable g : vcs.GithubClient.
Variable repo : models.Repo.
Variable pullNum : Z.

Let accept (s : string) : result unit :=
  vcs.Issues_CreateComment g (models.Owner repo) (models.Name repo) pullNum
                           {| Body := Some s |}.

Let post (s : string) : vcs.Call :=
  vcs.CreateIssueComment (models.Owner repo) (models.Name repo) pullNum {| Body := Some s |}.


Lemma postComments_outcome (comments : list string) :
  (fst (vcs.postComments g repo pullNum comments) = None
   <-> forall s, In s comments -> accept s = Ok tt)
  /\ exists k, snd (vcs.postComments g repo pullNum comments) = map post (firstn k comments).
Proof.
  induction comments as [| c rest [IHiff [k IHk]]]; cbn [vcs.postComments].
  - split; [split; [intros _ s [] | reflexivity] | exists 0%nat; reflexivity].
  - fold (accept c). destruct (accept c) as [[] | err] eqn:Hc.
    + split.
      * cbn [vcs.after fst]. rewrite IHiff. split.
        -- intros Hall s [<- | Hin]; [exact Hc | apply Hall; exact Hin].
        -- intros Hall s Hin. apply Hall. right. exact Hin.
      * exists (S k). cbn [vcs.after snd firstn map]. rewrite IHk. reflexivity.
    + split.
      * cbn [fst]. split; [discriminate |].
        intros Hall. specialize (Hall c (or_introl eq_refl)). congruence.
      * exists 1%nat. reflexivity.
Qed.


(** X2. CreateComment returns no error exactly when the platform accepts
    every segment of the comment, and the comments it posts are always
    the first so many segments, in their order. *)
Theorem CreateComment_succeeds_iff_all_accepted (comment : string) :
  let segments := common.SplitComment comment vcs.maxCommentLength vcs.sepEnd vcs.sepStart in
  (fst (vcs.CreateComment g repo pullNum comment) = None
   <-> forall s, In s segments -> accept s = Ok tt)
  /\ exists k, snd (vcs.CreateComment g repo pullNum comment) = map post (firstn k segments).
Proof. intros segments. apply postComments_outcome. Qed.

End Posting.


(** ** Pagination *)

Lemma pageOpts_page (p : Z) : vcs.pageOpts p = {| Page := p; PerPage := 300 |}.
Proof.
  unfold vcs.pageOpts. destruct (Z.eqb_spec p 0) as [-> | Hne]; reflexivity.
Qed.

Section Requests.

Variable g : vcs.GithubClient.
Variable repo : models.Repo.
Variable pull : models.PullRequest.

Let filesPage (p : Z) : vcs.Call :=
  vcs.ListFiles (models.Owner repo) (models.Name repo) (models.Num pull)
                {| Page := p; PerPage := 300 |}.

Let reviewsPage (p : Z) : vcs.Call :=
  vcs.ListReviews (models.Owner repo) (models.Name repo) (models.Num pull)
                  {| Page := p; PerPage := 300 |}.

Lemma GetModifiedFiles_loop_requests (fuel : nat) (files : list string) (p : Z)
      (r : list string * option error) (calls : list vcs.Call) :
  vcs.GetModifiedFiles_loop fuel g repo pull files p = Some (r, calls) ->
  exists ps, calls = map filesPage (p :: ps).
Proof.
  revert files p r calls. induction fuel as [| fuel IH]; intros files p r calls;
    cbn [vcs.GetModifiedFiles_loop]; [discriminate |].
  rewrite pageOpts_page. fold (filesPage p).
  destruct (vcs.PullRequests_ListFiles g _ _ _ _) as [[pageFiles resp] | err].
  - destruct (NextPage resp =? 0).
    + intros H. inversion H. exists []. reflexivity.
    + destruct (vcs.GetModifiedFiles_loop fuel g repo pull _ (NextPage resp))
        as [[r' calls'] |] eqn:Hrec; [| discriminate].
      intros H. inversion H. subst. apply IH in Hrec. destruct Hrec as [ps ->].
      exists (NextPage resp :: ps). reflexivity.
  - intros H. inversion H. exists []. reflexivity.
Qed.

Lemma PullIsApproved_loop_requests (fuel : nat) (p : Z)
      (r : bool * option error) (calls : list vcs.Call) :
  vcs.PullIsApproved_loop fuel g repo pull p = Some (r, calls) ->
  exists ps, calls = map reviewsPage (p :: ps).
Proof.
  revert p r calls. induction fuel as [| fuel IH]; intros p r calls;
    cbn [vcs.PullIsApproved_loop]; [discriminate |].
  rewrite pageOpts_page. fold (reviewsPage p).
  destruct (vcs.PullRequests_ListReviews g _ _ _ _) as [[pageReviews resp] | err].
  - destruct (vcs.anyApproved pageReviews).
    + intros H. inversion H. exists []. reflexivity.
    + destruct (NextPage resp =? 0).
      * intros H. inversion H. exists []. reflexivity.
      * destruct (vcs.PullIsApproved_loop fuel g repo pull (NextPage resp))
          as [[r' calls'] |] eqn:Hrec; [| discriminate].
        intros H. inversion H. subst. apply IH in Hrec. destruct Hrec as [ps ->].
        exists (NextPage resp :: ps). reflexivity.
  - intros H. inversion H. exists []. reflexivity.
Qed.

(** X3. Whenever GetModifiedFiles or PullIsApproved returns, it has made
    at least one call, every call it made is a page request for this
    pull request with 300 entries a page, and the first of them asks for
    page 0, the platform's first page. *)
Theorem page_requests_of_300 (fuel : nat) :
  (forall r calls,
     vcs.GetModifiedFiles fuel g repo pull = Some (r, calls) ->
     exists ps, calls = map filesPage (0 :: ps))
  /\ (forall r calls,
        vcs.PullIsApproved fuel g repo pull = Some (r, calls) ->
        exists ps, calls = map reviewsPage (0 :: ps)).
Proof.
  split; intros r calls H.
  - exact (GetModifiedFiles_loop_requests fuel [] 0 r calls H).
  - exact (PullIsApproved_loop_requests fuel 0 r calls H).
Qed.

Let fetchFiles : ListOptions -> result (list (option CommitFile) * Response) :=
  vcs.PullRequests_ListFiles g (models.Owner repo) (models.Name repo) (models.Num pull).

Let fetchReviews : ListOptions -> result (list (option PullRequestReview) * Response) :=
  vcs.PullRequests_ListReviews g (models.Owner repo) (models.Name repo) (models.Num pull).

(** X4. The listing of changed files has no page limit of its own: on a
    platform that names a next page after every page, it has not
    returned after any number of pages. *)
Theorem GetModifiedFiles_no_page_limit :
  (forall opts, exists items resp, fetchFiles opts = Ok (items, resp) /\ NextPage resp <> 0) ->
  forall fuel, vcs.GetModifiedFiles fuel g repo pull = None.
Proof.
  intros Hmore fuel. unfold vcs.GetModifiedFiles. generalize (@nil string), 0.
  induction fuel as [| fuel IH]; intros files p; cbn [vcs.GetModifiedFiles_loop];
    [reflexivity |].
  destruct (Hmore (vcs.pageOpts p)) as [items [resp [Hfetch Hnext]]].
  unfold fetchFiles in Hfetch. rewrite Hfetch.
  apply Z.eqb_neq in Hnext. rewrite Hnext, IH. reflexivity.
Qed.

(** X5. Nor has the approval check: on a platform that names a next page
    after every page and shows no approved review, it has not returned
    after any number of pages. *)
Theorem PullIsApproved_no_page_limit :
  (forall opts, exists items resp,
      fetchReviews opts = Ok (items, resp) /\ NextPage resp <> 0
      /\ ~ Design.hasApproved items) ->
  forall fuel, vcs.PullIsApproved fuel g repo pull = None.
Proof.
  intros Hmore fuel. unfold vcs.PullIsApproved. generalize 0.
  induction fuel as [| fuel IH]; intros p; cbn [vcs.PullIsApproved_loop];
    [reflexivity |].
  destruct (Hmore (vcs.pageOpts p)) as [items [resp [Hfetch [Hnext Hnone]]]].
  unfold fetchReviews in Hfetch. rewrite Hfetch.
  apply anyApproved_false in Hnone. rewrite Hnone.
  apply Z.eqb_neq in Hnext. rewrite Hnext, IH. reflexivity.
Qed.

(** X6. When the pages of reviews delivered so far hold no approved
    review and the page after them fails, PullIsApproved returns false
    with the error wrapped as the failure of getting reviews, the
    platform's text kept after the prefix. *)
Theorem PullIsApproved_page_error
        (q : Z) (pages : list (Z * list (option PullRequestReview)))
        (err : error) (fuel : nat) :
  Design.Delivered fetchReviews 0 pages q ->
  (forall pg, In pg pages -> ~ Design.hasApproved (snd pg)) ->
  fetchReviews (vcs.pageOpts q) = Err err ->
  (List.length pages < fuel)%nat ->
  exists wrapped,
    vcs.PullIsApproved fuel g repo pull
    = Some ((false, Some wrapped), map reviewsPage (map fst pages ++ [q])%list)
    /\ Error wrapped = "getting reviews: " ++ Error err.
Proof.
  intros Hwalk Hnone Hfail Hfuel. exists (Wrap err "getting reviews").
  split; [| reflexivity].
  unfold vcs.PullIsApproved.
  replace fuel with (List.length pages + S (fuel - List.length pages - 1))%nat by lia.
  rewrite (PullIsApproved_loop_delivered g repo pull _ _ _ Hwalk Hnone).
  cbn [vcs.PullIsApproved_loop]. unfold fetchReviews in Hfail. rewrite Hfail.
  simpl. rewrite !map_app. simpl. unfold reviewsPage.
  f_equal. f_equal. f_equal.
  - apply map_ext. intros p. now rewrite pageOpts_page.
  - now rewrite pageOpts_page.
Qed.

End Requests.

Lemma page_requests_of_300_witness :
  exists ps,
    [vcs.ListFiles "runatlantis" "atlantis" 7 {| Page := 0; PerPage := 300 |};
     vcs.ListFiles "runatlantis" "atlantis" 7 {| Page := 2; PerPage := 300 |}]
    = map (fun p => vcs.ListFiles "runatlantis" "atlantis" 7 {| Page := p; PerPage := 300 |})
          (0 :: ps).
Proof.
  apply (proj1 (page_requests_of_300 (Fixtures.github "clean" Fixtures.merged)
                  Fixtures.repo Fixtures.pull 5)
               (["a/main.tf"; "b/new.tf"; "b/old.tf"; "a/main.tf"], None)).
  reflexivity.
Defined.

Lemma GetModifiedFiles_no_page_limit_witness :
  vcs.GetModifiedFiles 1000 Scenarios.endless Fixtures.repo Fixtures.pull = None.
Proof.
  apply (GetModifiedFiles_no_page_limit Scenarios.endless Fixtures.repo Fixtures.pull).
  intros opts. do 2 eexists. split; [reflexivity |]. simpl. lia.
Defined.

Lemma PullIsApproved_no_page_limit_witness :
  vcs.PullIsApproved 1000 Scenarios.endless Fixtures.repo Fixtures.pull = None.
Proof.
  apply (PullIsApproved_no_page_limit Scenarios.endless Fixtures.repo Fixtures.pull).
  intros opts. do 2 eexists. split; [reflexivity |]. split; [simpl; lia |].
  apply anyApproved_false. reflexivity.
Defined.

Lemma PullIsApproved_page_error_witness :
  exists wrapped,
    vcs.PullIsApproved 5 Scenarios.readOnly Fixtures.repo Fixtures.pull
    = Some ((false, Some wrapped),
            [vcs.ListReviews "runatlantis" "atlantis" 7 {| Page := 0; PerPage := 300 |};
             vcs.ListReviews "runatlantis" "atlantis" 7 {| Page := 2; PerPage := 300 |}])
    /\ Error wrapped = "getting reviews: 502 Bad Gateway".
Proof.
  apply (PullIsApproved_page_error Scenarios.readOnly Fixtures.repo Fixtures.pull 2
           [(0, [Fixtures.review "COMMENTED"])] (errorString "502 Bad Gateway") 5).
  - eapply Design.Delivered_cons with (resp := {| NextPage := 2; StatusCode := 200 |}).
    + reflexivity.
    + simpl. lia.
    + apply Design.Delivered_nil.
  - intros pg [<- | []]. apply anyApproved_false. reflexivity.
  - reflexivity.
  - simpl. lia.
Defined.

(** ** Mergeability and merging *)

(** X7. PullIsMergeable fails closed: it makes one call, the fetch of
    the pull request; it answers true only with no error, after a fetch
    that succeeded with one of the three mergeable states; and after a
    failed fetch it answers false with the error wrapped as the failure
    of getting the pull request. *)
Theorem PullIsMergeable_fails_closed
        (g : vcs.GithubClient) (repo : models.Repo) (pull : models.PullRequest) :
  let reply := vcs.PullRequests_Get g (models.Owner repo) (models.Name repo)
                                    (models.Num pull) in
  snd (vcs.PullIsMergeable g repo pull)
  = [vcs.GetPull (models.Owner repo) (models.Name repo) (models.Num pull)]
  /\ (forall e, fst (vcs.PullIsMergeable g repo pull) = (true, e) ->
        e = None
        /\ exists pr, reply = Ok pr
                      /\ In (GetMergeableState (Some pr)) Design.mergeableStates)
  /\ (forall err, reply = Err err ->
        fst (vcs.PullIsMergeable g repo pull)
        = (false, Some (Wrap err "getting pull request"))).
Proof.
  intros reply. unfold vcs.PullIsMergeable, vcs.GetPullRequest. fold reply.
  destruct reply as [pr | err] eqn:Hreply.
  - set (state := GetMergeableState (Some pr)).
    unfold Design.mergeableStates. cbn [In].
    destruct (String.eqb_spec state "clean") as [Hc | Hc];
      destruct (String.eqb_spec state "unstable") as [Hu | Hu];
      destruct (String.eqb_spec state "has_hooks") as [Hh | Hh]; cbn;
      (split; [reflexivity |]); (split; [| discriminate]); intros e He;
      inversion He; (split; [reflexivity |]); exists pr; (split; [reflexivity |]);
      auto.
  - cbn. split; [reflexivity |]. split.
    + intros e He. discriminate He.
    + intros err' Herr. inversion Herr. reflexivity.
Qed.

Lemma PullIsMergeable_fails_closed_witness :
  fst (vcs.PullIsMergeable Scenarios.readOnly Fixtures.repo Fixtures.pull)
  = (false, Some (Wrap (errorString "404 Not Found") "getting pull request")).
Proof.
  apply (PullIsMergeable_fails_closed Scenarios.readOnly Fixtures.repo Fixtures.pull).
  reflexivity.
Defined.

Lemma MergePull_calls_after_fetch
      (msg : string) (g : vcs.GithubClient) (pull : models.PullRequest) (repo : Repository) :
  vcs.Repositories_Get g (models.Owner (models.BaseRepo pull))
                       (models.Name (models.BaseRepo pull)) = Ok repo ->
  snd (vcs.MergePull msg g pull)
  = [vcs.GetRepo (models.Owner (models.BaseRepo pull)) (models.Name (models.BaseRepo pull));
     vcs.Merge (models.Owner (models.BaseRepo pull)) (models.Name (models.BaseRepo pull))
               (models.Num pull) msg {| MergeMethod := vcs.mergeMethod (Some repo) |}].
Proof.
  intros Hrepo. unfold vcs.MergePull. rewrite Hrepo.
  destruct (vcs.PullRequests_Merge g _ _ _ msg _) as [res | err];
    [destruct (negb (GetMerged (Some res))) |]; reflexivity.
Qed.

(** X8. MergePull never merges blind: its first call is the fetch of the
    base repository and at most one call follows it; a merge call is
    made only after that fetch succeeded, and it is made for the pull
    request's base repository and number, with the automerge commit
    message and the method that the fetched settings select. When the
    fetch fails no merge call is made and the error comes back wrapped
    as the failure of fetching the repository. *)
Theorem MergePull_merges_after_fetch
        (msg : string) (g : vcs.GithubClient) (pull : models.PullRequest) :
  let owner := models.Owner (models.BaseRepo pull) in
  let name := models.Name (models.BaseRepo pull) in
  (exists rest, snd (vcs.MergePull msg g pull) = vcs.GetRepo owner name :: rest
                /\ (List.length rest <= 1)%nat)
  /\ (forall o n num m opts,
        In (vcs.Merge o n num m opts) (snd (vcs.MergePull msg g pull)) ->
        o = owner /\ n = name /\ num = models.Num pull /\ m = msg
        /\ exists repo, vcs.Repositories_Get g owner name = Ok repo
                        /\ MergeMethod opts = vcs.mergeMethod (Some repo))
  /\ (forall err, vcs.Repositories_Get g owner name = Err err ->
        vcs.MergePull msg g pull
        = (Some (Wrap err "fetching repo info"), [vcs.GetRepo owner name])).
Proof.
  intros owner name.
  destruct (vcs.Repositories_Get g owner name) as [repo | err] eqn:Hrepo.
  - rewrite (MergePull_calls_after_fetch msg g pull repo Hrepo). fold owner name.
    split; [| split].
    + eexists. split; [reflexivity | simpl; lia].
    + intros o n num m opts [Hin | [Hin | []]]; [discriminate |].
      inversion Hin. subst. repeat split. exists repo. split; reflexivity.
    + intros err Herr. discriminate Herr.
  - unfold vcs.MergePull. fold owner name. rewrite Hrepo.
    split; [| split].
    + exists []. split; [reflexivity | simpl; lia].
    + intros o n num m opts [Hin | []]. discriminate Hin.
    + intros err' Herr. inversion Herr. reflexivity.
Qed.

Lemma MergePull_merges_after_fetch_witness :
  vcs.MergePull Fixtures.commitMsg Scenarios.readOnly Fixtures.pull
  = (Some (Wrap (errorString "404 Not Found") "fetching repo info"),
     [vcs.GetRepo "runatlantis" "atlantis"])
  /\ exists repo,
      vcs.Repositories_Get (Fixtures.github "clean" Fixtures.merged) "runatlantis" "atlantis"
      = Ok repo
      /\ "squash" = vcs.mergeMethod (Some repo).
Proof.
  split.
  - apply (MergePull_merges_after_fetch Fixtures.commitMsg Scenarios.readOnly Fixtures.pull).
    reflexivity.
  - apply (proj1 (proj2 (MergePull_merges_after_fetch Fixtures.commitMsg
                           (Fixtures.github "clean" Fixtures.merged) Fixtures.pull))
                 "runatlantis" "atlantis" 7 Fixtures.commitMsg {| MergeMethod := "squash" |}).
    right. left. reflexivity.
Defined.

(** ** Commit statuses *)

(** X9. UpdateStatus makes one call, which writes the status against
    the pull request's head commit with the given context, description
    and target URL; the state it sends is pending, success or failure
    for the three named statuses and error for every other value; and it
    returns whatever error the call gave, unchanged. *)
Theorem UpdateStatus_writes_head_commit
        (pending success failed : Z)
        (createStatus : string -> string -> string -> vcs_client.RepoStatus -> result unit)
        (repo : models.Repo) (pull : models.PullRequest) (state : Z)
        (src description url : string) :
  pending <> success -> pending <> failed -> success <> failed ->
  exists ghState,
    let status := {| vcs_client.State := Some ghState;
                     vcs_client.Description := Some description;
                     vcs_client.Context := Some src;
                     vcs_client.TargetURL := Some url |} in
    snd (vcs_client.UpdateStatus pending success failed createStatus
                                 repo pull state src description url)
    = [vcs_client.CreateStatus (models.Owner repo) (models.Name repo)
                               (models.HeadCommit pull) status]
    /\ fst (vcs_client.UpdateStatus pending success failed createStatus
                                    repo pull state src description url)
       = match createStatus (models.Owner repo) (models.Name repo)
                            (models.HeadCommit pull) status with
         | Ok _ => None
         | Err err => Some err
         end
    /\ (state = pending -> ghState = "pending")
    /\ (state = success -> ghState = "success")
    /\ (state = failed -> ghState = "failure")
    /\ (state <> pending -> state <> success -> state <> failed -> ghState = "error").
Proof.
  intros Hps Hpf Hsf.
  exists (vcs_client.ghStateOf pending success failed state). cbv zeta.
  unfold vcs_client.UpdateStatus.
  split; [| split].
  - destruct (createStatus _ _ _ _); reflexivity.
  - destruct (createStatus _ _ _ _); reflexivity.
  - unfold vcs_client.ghStateOf.
    destruct (Z.eqb_spec state pending) as [Hp | Hp];
      destruct (Z.eqb_spec state success) as [Hs | Hs];
      destruct (Z.eqb_spec state failed) as [Hf | Hf];
      repeat split; intros; try reflexivity; congruence.
Qed.

Lemma UpdateStatus_writes_head_commit_witness :
  exists ghState,
    snd (vcs_client.UpdateStatus 0 1 2 Scenarios.createStatus Fixtures.repo Fixtures.pull 2
                                 "atlantis/plan" "Plan failed." "https://atlantis.example.com")
    = [vcs_client.CreateStatus "runatlantis" "atlantis" "abc123"
         {| vcs_client.State := Some ghState;
            vcs_client.Description := Some "Plan failed.";
            vcs_client.Context := Some "atlantis/plan";
            vcs_client.TargetURL := Some "https://atlantis.example.com" |}]
    /\ ghState = "failure".
Proof.
  destruct (UpdateStatus_writes_head_commit 0 1 2 Scenarios.createStatus Fixtures.repo
              Fixtures.pull 2 "atlantis/plan" "Plan failed." "https://atlantis.example.com")
    as [ghState [Hcall [_ [_ [_ [Hfailed _]]]]]]; try lia.
  exists ghState. split; [exact Hcall | apply Hfailed; reflexivity].
Defined.

(** ** Credentials and construction *)

(** X10. The two derivations of an application's client agree: where
    the one of the credentials file returns a client, the one of the
    client file returns the same client; where the former returns an
    error, the latter panics with that error; and the former returns a
    client or an error, never both and never neither. *)
Theorem Client_panics_where_error_returned
        (h : http.Host) (c : vcs_credentials.GithubAppCredentials) :
  let c' := {| vcs.App := vcs_credentials.AppID c; vcs.Key := vcs_credentials.KeyPath c |} in
  (exists client, vcs_credentials.Client h c = (Some client, None)
                  /\ vcs.Client h c' = Returns client)
  \/ (exists err, vcs_credentials.Client h c = (None, Some err)
                  /\ vcs.Client h c' = Panics err).
Proof.
  intros c'. subst c'. simpl.
  change (vcs.getInstallationID h
            {| vcs.App := vcs_credentials.AppID c; vcs.Key := vcs_credentials.KeyPath c |})
    with (vcs_credentials.getInstallationID h c).
  destruct (vcs_credentials.getInstallationID h c) as [n [err |]].
  - right. exists err. split; reflexivity.
  - destruct (http.NewKeyFromFile h _ _ n _) as [itr | err].
    + left. eexists. split; reflexivity.
    + right. exists err. split; reflexivity.
Qed.

(** X11. A client that the derivation returns is one for the resolved
    installation: its transport is the one built from the key for the
    application and for the integer that the identity endpoint's textual
    id denotes, and that id fits 64 bits. *)
Theorem Client_is_for_resolved_installation
        (h : http.Host) (c : vcs_credentials.GithubAppCredentials) (client : http.Client) :
  vcs_credentials.Client h c = (Some client, None) ->
  exists t req id n,
    http.NewAppsTransportKeyFromFile h http.DefaultTransport
      (vcs_credentials.AppID c) (vcs_credentials.KeyPath c) = Ok t
    /\ http.NewRequest h "GET" "/app" = Ok req
    /\ http.DoApp h {| http.Transport := t |} req = Ok id
    /\ Design.integerOf id = Some n
    /\ - 2 ^ 63 <= n < 2 ^ 63
    /\ http.NewKeyFromFile h http.DefaultTransport (vcs_credentials.AppID c) n
                           (vcs_credentials.KeyPath c)
       = Ok (http.Transport client).
Proof.
  simpl. unfold vcs_credentials.getInstallationID.
  destruct (http.NewAppsTransportKeyFromFile h _ _ _) as [t | e] eqn:Ht; [| discriminate].
  destruct (http.NewRequest h "GET" "/app") as [req | e] eqn:Hreq; [| discriminate].
  destruct (http.DoApp h _ req) as [id | e] eqn:Hdo; [| discriminate].
  destruct (ParseInt id) as [n [e |]] eqn:Hparse; [discriminate |].
  destruct (http.NewKeyFromFile h _ _ n _) as [itr | e] eqn:Hkey; [| discriminate].
  intros H. inversion H. subst client. exists t, req, id, n.
  split; [reflexivity |]. split; [reflexivity |]. split; [exact Hdo |].
  split; [apply ParseInt_value; exact Hparse |].
  split; [apply (ParseInt_range id n Hparse) | exact Hkey].
Qed.

Lemma Client_is_for_resolved_installation_witness :
  exists t req id n,
    http.NewAppsTransportKeyFromFile (Fixtures.host "12345") http.DefaultTransport 1 "atlantis.pem"
    = Ok t
    /\ http.NewRequest (Fixtures.host "12345") "GET" "/app" = Ok req
    /\ http.DoApp (Fixtures.host "12345") {| http.Transport := t |} req = Ok id
    /\ Design.integerOf id = Some n
    /\ - 2 ^ 63 <= n < 2 ^ 63
    /\ http.NewKeyFromFile (Fixtures.host "12345") http.DefaultTransport 1 n "atlantis.pem"
       = Ok (http.InstallationTransport 1 12345 "atlantis.pem").
Proof.
  apply (Client_is_for_resolved_installation (Fixtures.host "12345") Scenarios.app
           {| http.Transport := http.InstallationTransport 1 12345 "atlantis.pem" |}).
  reflexivity.
Defined.


Section Construction.

Variable URL : Type.
Variable Parse : string -> result URL.
Variable defaultBaseURL : URL.

(** X12. NewGithubClient derives the client from the credentials before
    it looks at the hostname: with an application credential whose
    installation cannot be resolved it panics with the resolver's error
    for every hostname, also for one that could not be parsed. *)
Theorem NewGithubClient_panics_with_credentials
        (h : http.Host) (c : vcs.GithubAppCredentials) (n : Z) (err : error) :
  vcs.getInstallationID h c = (n, Some err) ->
  forall hostname,
    vcs_client.NewGithubClient URL Parse defaultBaseURL h hostname c = Panics err.
Proof.
  intros Hres hostname. unfold vcs_client.NewGithubClient.
  rewrite (Client_panics_on_failed_resolution h c n err Hres). reflexivity.
Qed.


End Construction.

Lemma NewGithubClient_panics_with_credentials_witness :
  vcs_client.NewGithubClient string Scenarios.parse "https://api.github.com/"
    Fixtures.hostWithoutKey "not a host" Scenarios.appOfClientFile
  = Panics Fixtures.noKey.
Proof.
  apply (NewGithubClient_panics_with_credentials string Scenarios.parse
           "https://api.github.com/" Fixtures.hostWithoutKey Scenarios.appOfClientFile 0).
  reflexivity.
Defined.


(* ===================================================================== *)
(** * Further properties of the controller                                *)
(* ===================================================================== *)

(** ** Formats *)

(** A format without a verb and without operands comes out as it is. *)
Lemma Sprintf_plain (format : string) :
  Observations.plain format = true -> Sprintf format [] = format.
Proof.
  induction format as [| c rest IH]; cbn [Observations.plain Sprintf]; [reflexivity |].
  destruct (Ascii.eqb c "%"); [discriminate |].
  cbn [negb andb]. intros Hrest. now rewrite IH.
Qed.

Lemma exchange_url (code : string) :
  Sprintf "/app-manifests/%s/conversions" [ArgString code]
  = "/app-manifests/" ++ code ++ "/conversions".
Proof. reflexivity. Qed.

Example Sprintf_percent_without_operand :
  Sprintf "100%" [] = "100%!(NOVERB)" /\ Sprintf "50% off" [] = "50%! (MISSING)off".
Proof. split; reflexivity. Qed.

(** ** The code exchange *)

(** X14. Once the setup is complete, ExchangeCode answers every request
    with the status 400 and one line, and does nothing else: it builds
    no request of an exchange and sends none. *)
Theorem ExchangeCode_refuses_when_configured
        (g : server.GithubAppController) (x : server.Exchange) (r : server.Request) :
  server.GithubSetupComplete g = true ->
  let events := server.ExchangeCode g x r in
  Design.headersWritten events = [400]
  /\ Design.bodiesWritten events = ["Atlantis already has GitHub credentials" ++ nl]
  /\ Design.exchangesAttempted events = []
  /\ Observations.requestsSent events = [].
Proof.
  intros Hsetup events. subst events. unfold server.ExchangeCode. rewrite Hsetup.
  repeat split.
Qed.

Lemma ExchangeCode_refuses_when_configured_witness :
  Design.headersWritten
    (server.ExchangeCode Scenarios.configured Scenarios.converting Scenarios.withCode) = [400]
  /\ Observations.requestsSent
       (server.ExchangeCode Scenarios.configured Scenarios.converting Scenarios.withCode) = [].
Proof.
  destruct (ExchangeCode_refuses_when_configured Scenarios.configured Scenarios.converting
              Scenarios.withCode eq_refl) as [H1 [_ [_ H4]]].
  split; [exact H1 | exact H4].
Defined.



(** X16. When the conversion succeeds with a status below 400, the
    handler answers 200 and writes one line: the JSON of the response
    that carries the application's id, its key and its webhook secret
    as the platform sent them. The JSON goes through as it was marshalled
    provided it holds no percent sign, since it is used as a format. *)
Theorem ExchangeCode_hands_back_credentials
        (g : server.GithubAppController) (x : server.Exchange) (r : server.Request)
        (req : http.Request) (res : Response) (app : server.appManifest) :
  server.GithubSetupComplete g = false ->
  server.Get (server.Query r) "code" <> EmptyString ->
  let code := server.Get (server.Query r) "code" in
  let json :=
    server.Marshal x
      {| server.COMMENT := "Update these values in your Atlantis config and restart the server";
         server.ID := server.app_ID app;
         server.Key := server.app_Key app;
         server.WebhookSecret := server.app_WebhookSecret app |} in
  server.NewRequest x "POST" ("/app-manifests/" ++ code ++ "/conversions") = Ok req ->
  server.Do x req = Ok (res, app) ->
  StatusCode res < 400 ->
  Observations.plain json = true ->
  Design.headersWritten (server.ExchangeCode g x r) = [200]
  /\ Design.bodiesWritten (server.ExchangeCode g x r) = [json ++ nl].
Proof.
  intros Hsetup Hcode code json Hreq Hdo Hstatus Hplain.
  unfold server.ExchangeCode. rewrite Hsetup. fold code.
  apply String.eqb_neq in Hcode. fold code in Hcode. rewrite Hcode.
  rewrite exchange_url, Hreq, Hdo.
  apply Z.leb_gt in Hstatus. rewrite Hstatus. fold json.
  unfold server.respond. rewrite (Sprintf_plain json Hplain).
  split; reflexivity.
Qed.

Lemma ExchangeCode_hands_back_credentials_witness :
  Design.headersWritten
    (server.ExchangeCode Fixtures.controller Scenarios.converting Scenarios.withCode) = [200]
  /\ Design.bodiesWritten
       (server.ExchangeCode Fixtures.controller Scenarios.converting Scenarios.withCode)
     = ["{id:42}" ++ nl].
Proof.
  apply (ExchangeCode_hands_back_credentials Fixtures.controller Scenarios.converting
           Scenarios.withCode
           {| http.Method := "POST"; http.URL := "/app-manifests/abc/conversions" |}
           {| NextPage := 0; StatusCode := 201 |}
           {| server.app_ID := 42; server.app_Key := "PEM";
              server.app_WebhookSecret := "c2VjcmV0"; server.app_Name := "Atlantis" |}
           eq_refl ltac:(discriminate) eq_refl eq_refl eq_refl eq_refl).
Defined.



(** ** The webhook secret *)

Lemma list_ind3 {A : Type} (P : list A -> Prop) :
  P [] -> (forall a, P [a]) -> (forall a b, P [a; b]) ->
  (forall a b c rest, P rest -> P (a :: b :: c :: rest)) ->
  forall l, P l.
Proof.
  intros H0 H1 H2 H3 l.
  assert (Hall : forall n l', (List.length l' <= n)%nat -> P l').
  { induction n as [| n IH]; intros l' Hlen.
    - destruct l'; [exact H0 | simpl in Hlen; lia].
    - destruct l' as [| a [| b [| c rest]]]; auto.
      apply H3. apply IH. simpl in Hlen. lia. }
  apply (Hall (List.length l)). lia.
Qed.

Lemma EncodeToString_length (src : list ascii) :
  String.length (base64.EncodeToString src) = (4 * ((List.length src + 2) / 3))%nat.
Proof.
  induction src as [| a | a b | a b c rest IH] using list_ind3; try reflexivity.
  change (base64.EncodeToString (a :: b :: c :: rest))
    with (String (base64.sextet (N_of_ascii a / 4))
            (String (base64.sextet ((N_of_ascii a mod 4) * 16 + N_of_ascii b / 16))
               (String (base64.sextet ((N_of_ascii b mod 16) * 4 + N_of_ascii c / 64))
                  (String (base64.sextet (N_of_ascii c mod 64))
                     (base64.EncodeToString rest))))).
  cbn [String.length List.length]. rewrite IH.
  replace (S (S (S (List.length rest))) + 2)%nat
    with (1 * 3 + (List.length rest + 2))%nat by lia.
  rewrite Nat.div_add_l by lia. lia.
Qed.




Lemma filled_length (n : Z) (data : list ascii) :
  List.length (server_setup.filled n data) = Z.to_nat n.
Proof.
  unfold server_setup.filled. rewrite length_firstn, length_app, repeat_length. lia.
Qed.



(** ** The redirect to the app creation *)

(** X19. New answers once, with 400, 502 or 307. It answers 400 exactly
    when the setup is complete, and then it has drawn no random bytes
    and set no header; it answers 502 when the random source fails, with
    no header set; and it sets a header, one Location, exactly when it
    answers 307. Unless it answers 400 it has asked for 20 random bytes. *)
Theorem New_answers_once (g : server.GithubAppController) (o : server_setup.Outside) :
  let events := server_setup.New g o in
  exists status body,
    Design.headersWritten (Observations.served events) = [status]
    /\ Design.bodiesWritten (Observations.served events) = [body]
    /\ (status = 400 \/ status = 502 \/ status = 307)
    /\ (status = 400 <-> server.GithubSetupComplete g = true)
    /\ (status = 400 ->
        Observations.randomReads events = [] /\ Observations.headersAdded events = [])
    /\ (status <> 400 -> Observations.randomReads events = [20])
    /\ (status = 502 <-> exists err, server.GithubSetupComplete g = false
                                     /\ server_setup.randRead o 20 = Err err)
    /\ (status = 502 -> Observations.headersAdded events = [])
    /\ (status = 307 <-> exists location,
                           Observations.headersAdded events = [("Location", location)]).
Proof.
  intros events. subst events. unfold server_setup.New, server_setup.newWebhookSecret.
  destruct (server.GithubSetupComplete g).
  - exists 400. eexists. repeat split; try reflexivity; try discriminate; try tauto.
    + intros [err [H _]]. discriminate H.
    + intros [location H]. discriminate H.
  - destruct (server_setup.randRead o 20) as [data | err].
    + exists 307. eexists. repeat split; try reflexivity; try discriminate; try tauto.
      * intros [err [_ H]]. discriminate H.
      * intros _. eexists. reflexivity.
    + exists 502. eexists. repeat split; try reflexivity; try discriminate; try tauto.
      * intros _. exists err. split; reflexivity.
      * intros [location H]. discriminate H.
Qed.

(** X20. When the setup is not complete and the random source delivers,
    New sends the user to one location: the rendering of an https URL on
    the configured GitHub host, with the path /settings/apps/new, or
    organizations/ORG/settings/apps/new when an organization is
    configured, and with the encoded manifest as its query. The manifest
    names the fresh 28-character secret as the webhook secret, the
    exchange-code address under the Atlantis URL both as callback and as
    setup URL, the events address under it as webhook URL, and is not
    public. *)
Theorem New_redirect_target
        (g : server.GithubAppController) (o : server_setup.Outside) (data : list ascii) :
  server.GithubSetupComplete g = false ->
  server_setup.randRead o 20 = Ok data ->
  exists secret url,
    let manifest := server_setup.appRequest g secret in
    Observations.headersAdded (server_setup.New g o)
    = [("Location", server_setup.urlString o url)]
    /\ Design.headersWritten (Observations.served (server_setup.New g o)) = [307]
    /\ String.length secret = 28%nat
    /\ server_setup.Scheme url = "https"
    /\ server_setup.Host url = server.GithubHostname g
    /\ (server.GithubOrg g = EmptyString -> server_setup.Path url = "/settings/apps/new")
    /\ (server.GithubOrg g <> EmptyString ->
        server_setup.Path url = "organizations/" ++ server.GithubOrg g ++ "/settings/apps/new")
    /\ server_setup.RawQuery url = server_setup.queryEncode o manifest
    /\ server_setup.WebhookSecret manifest = secret
    /\ server_setup.CallbackURL manifest = server.AtlantisURL g ++ "/github-app/exchange-code"
    /\ server_setup.SetupURL manifest = server_setup.CallbackURL manifest
    /\ server_setup.WebhookURL manifest = server.AtlantisURL g ++ "/events"
    /\ server_setup.Public manifest = false.
Proof.
  intros Hsetup Hrand.
  exists (base64.EncodeToString (server_setup.filled 20 data)).
  exists (server_setup.target g o (base64.EncodeToString (server_setup.filled 20 data))).
  cbv zeta. unfold server_setup.New, server_setup.newWebhookSecret.
  rewrite Hsetup, Hrand.
  split; [reflexivity |]. split; [reflexivity |].
  split; [rewrite EncodeToString_length, filled_length; reflexivity |].
  unfold server_setup.target.
  destruct (String.eqb_spec (server.GithubOrg g) EmptyString) as [Horg | Horg];
    cbn [negb server_setup.Scheme server_setup.Host server_setup.Path server_setup.RawQuery].
  - split; [reflexivity |]. split; [reflexivity |]. split; [reflexivity |].
    split; [intros Hne; contradiction |].
    unfold server_setup.appRequest.
    cbn [server_setup.WebhookSecret server_setup.CallbackURL server_setup.SetupURL
         server_setup.WebhookURL server_setup.Public].
    repeat (split; [reflexivity |]). reflexivity.
  - split; [reflexivity |]. split; [reflexivity |]. split; [intros Heq; contradiction |].
    split; [intros _; reflexivity |].
    unfold server_setup.appRequest.
    cbn [server_setup.WebhookSecret server_setup.CallbackURL server_setup.SetupURL
         server_setup.WebhookURL server_setup.Public].
    repeat (split; [reflexivity |]). reflexivity.
Qed.

Lemma New_redirect_target_witness :
  Observations.headersAdded (server_setup.New Scenarios.orgController Scenarios.outside)
  = [("Location",
      "https://github.com/organizations/runatlantis/settings/apps/new?webhook_secret=QUFBAAAAAAAAAAAAAAAAAAAAAAA=")].
Proof.
  destruct (New_redirect_target Scenarios.orgController Scenarios.outside
              (repeat "A"%char 3) eq_refl eq_refl) as [secret [url [Hloc _]]].
  vm_compute. reflexivity.
Defined.
